(** * fetch_todos.py: fetch, transform, persist, preview

    A shallow embedding of [src/fetch_todos.py] and of the parts of
    [requests] and [pandas] the script calls, followed by the properties
    of the script.

    Conventions of the embedding:
    - a Python [dict] with text keys is an association list in insertion
      order; a key reads as its first binding;
    - JSON values are [null], booleans, integers, text, and nested values
      (arrays and objects), which are kept as the text [str] gives them;
      integers are exact ([Z]) and numbers with a fraction are left out;
    - a text is stored as the bytes of its UTF-8 encoding; a lone
      surrogate, which JSON can carry and UTF-8 cannot encode, is stored
      as the three bytes ED A0..BF 80..BF of its code point;
    - a [DataFrame] is stored column by column, as pandas does, over a
      [RangeIndex]; column labels may repeat;
    - numbers are the integers themselves. pandas holds a column of
      integers as [int64], and as [float64] once a value is missing, and
      numpy adds within these types: the embedding agrees with them as
      long as the integers and their sums stay within 2^53 in absolute
      value, and the properties that depend on the value or on the text
      of a number are stated within that range ([small_ints]) or for
      columns without numbers;
    - Python exceptions, [SystemExit] included, are the [Raise] branch of
      [outcome]; the console, the file system and the network are fields
      of [World], threaded through the [Py] monad. *)

From Stdlib Require Import ZArith String Ascii List Bool Lia DecimalString.
From stdpp Require Import base strings gmap.
Import ListNotations.
Open Scope string_scope.

(** ** Text helpers *)

Definition nl : string := String (ascii_of_nat 10) EmptyString.
Definition dquote : string := String (ascii_of_nat 34) EmptyString.

(** [str(z)] for a Python [int]. *)
Definition str_int (z : Z) : string := NilZero.string_of_int (Z.to_int z).

(** [str(x)] for a float that holds an integer value below 10^16 in
    absolute value: [1.0], [-3.0]. *)
Definition str_float (z : Z) : string := str_int z ++ ".0".

(** [sep.join(parts)]. *)
Fixpoint join (sep : string) (parts : list string) : string :=
  match parts with
  | [] => EmptyString
  | [p] => p
  | p :: rest => p ++ sep ++ join sep rest
  end.

(** [s * n]. *)
Fixpoint repeat_str (s : string) (n : nat) : string :=
  match n with
  | O => EmptyString
  | S n' => s ++ repeat_str s n'
  end.

Fixpoint contains_char (c : ascii) (s : string) : bool :=
  match s with
  | EmptyString => false
  | String c' s' => Ascii.eqb c c' || contains_char c s'
  end.

(** ** JSON values and records *)

Inductive json : Type :=
| JNull
| JBool (b : bool)
| JInt (z : Z)
| JStr (s : string)
| JNested (text : string).

Definition dict (V : Type) : Type := list (string * V).

Fixpoint dict_get {V : Type} (k : string) (d : dict V) : option V :=
  match d with
  | [] => None
  | (k', v) :: d' => if String.eqb k k' then Some v else dict_get k d'
  end.

Definition dict_keys {V : Type} (d : dict V) : list string := map fst d.

(** One object of the array returned by the service. *)
Definition RawRecord : Type := dict json.

(** ** Python values and exceptions *)

Inductive pyval : Type :=
| PyInt (z : Z)
| PyFloat (z : Z)
| PyStr (s : string).

Definition py_str (v : pyval) : string :=
  match v with
  | PyInt z => str_int z
  | PyFloat z => str_float z
  | PyStr s => s
  end.

(** Classes of [requests.exceptions] the script can meet. [ConnectTimeout]
    inherits from both [ConnectionError] and [Timeout]. *)
Inductive req_class : Type :=
| ConnectionError
| ConnectTimeout
| ReadTimeout
| HTTPError
| JSONDecodeError
| OtherRequestException.

Definition isinstance_ConnectionError (c : req_class) : bool :=
  match c with ConnectionError | ConnectTimeout => true | _ => false end.

Definition isinstance_Timeout (c : req_class) : bool :=
  match c with ConnectTimeout | ReadTimeout => true | _ => false end.

Definition isinstance_HTTPError (c : req_class) : bool :=
  match c with HTTPError => true | _ => false end.

Inductive exn : Type :=
| KeyError (missing : list string)
| TypeError
| OSError
| UnicodeEncodeError
| SystemExit (code : Z)
| UnboundLocalError
| RequestException (cls : req_class) (msg : string).

Inductive outcome (A : Type) : Type :=
| Return (a : A)
| Raise (e : exn).
Arguments Return {A} a.
Arguments Raise {A} e.

Definition obind {A B : Type} (o : outcome A) (k : A -> outcome B) : outcome B :=
  match o with
  | Return a => k a
  | Raise e => Raise e
  end.

(** ** pandas: cells, dtypes, frames *)

(** A cell is a JSON value or the missing marker pandas fills in. *)
Inductive cell : Type :=
| NaN
| Val (v : json).

Inductive dtype : Type := bool_ | int64 | float64 | object_.

Definition is_null (c : cell) : bool :=
  match c with NaN | Val JNull => true | _ => false end.

Definition is_int (c : cell) : bool :=
  match c with Val (JInt _) => true | _ => false end.

Definition is_bool (c : cell) : bool :=
  match c with Val (JBool _) => true | _ => false end.

Definition is_str (c : cell) : bool :=
  match c with Val (JStr _) => true | _ => false end.

(** The cell holds an array or an object. *)
Definition is_nested (c : cell) : bool :=
  match c with Val (JNested _) => true | _ => false end.

(** The dtype pandas infers for a column built from Python objects
    whose integers fit in 64 bits: booleans only give [bool]; integers
    only give [int64]; integers with missing values give [float64];
    everything else stays [object]. *)
Definition infer_dtype (s : list cell) : dtype :=
  if forallb is_bool s then bool_
  else if forallb is_int s then int64
  else if forallb (fun c => is_int c || is_null c) s && existsb is_int s then float64
  else object_.

Definition is_numeric_dtype (d : dtype) : bool :=
  match d with int64 | float64 => true | _ => false end.

Record DataFrame : Type := mkDataFrame {
  columns : list (string * list cell);
  index : nat
}.

(** [len(df)]. *)
Definition len (df : DataFrame) : Z := Z.of_nat (index df).

(** [list(df.columns)]. *)
Definition labels (df : DataFrame) : list string := map fst (columns df).

Definition has_label (l : string) (c : string * list cell) : bool :=
  String.eqb (fst c) l.

(** Some record of [data] has the key [k]. *)
Definition key_used (k : string) (data : list RawRecord) : Prop :=
  exists r, In r data /\ In k (dict_keys r).

(** Keeps the first occurrence of every element, in order. *)
Fixpoint first_seen (ks : list string) : list string :=
  match ks with
  | [] => []
  | k :: ks' => k :: List.filter (fun k' => negb (String.eqb k k')) (first_seen ks')
  end.

Definition column_of (data : list RawRecord) (k : string) : list cell :=
  map (fun r => match dict_get k r with Some v => Val v | None => NaN end) data.

(** The keys of the records, each once, in the order they are first met. *)
Definition keys_of (data : list RawRecord) : list string :=
  first_seen (concat (map dict_keys data)).

(** [pd.DataFrame(data)] for a list of dicts: one column per key, in the
    order the keys are first met; a record without the key gets [NaN].
    The cells keep the values of the records (a [float64] column holds
    the float nearest to each integer, which is the integer itself up to
    2^53). *)
Definition pd_DataFrame (data : list RawRecord) : DataFrame :=
  {| columns := map (fun k => (k, column_of data k)) (keys_of data);
     index := length data |}.

(** The columns of a frame that carry label [l], in frame order. *)
Definition labelled (l : string) (cols : list (string * list cell))
  : list (string * list cell) :=
  List.filter (has_label l) cols.

Definition rename_label (mapper : dict string) (l : string) : string :=
  match dict_get l mapper with
  | Some l' => l'
  | None => l
  end.

(** [df.rename(columns=mapper)]: labels absent from [mapper] are kept. *)
Definition rename (mapper : dict string) (df : DataFrame) : DataFrame :=
  {| columns := map (fun c => (rename_label mapper (fst c), snd c)) (columns df);
     index := index df |}.

(** [df[label]]: a [Series] when the label is unique, a sub-frame when it
    repeats, [KeyError] when it is absent. *)
Inductive selection : Type :=
| Series (values : list cell)
| SubFrame (cols : list (list cell)).

Definition getitem (label : string) (df : DataFrame) : outcome selection :=
  match map snd (labelled label (columns df)) with
  | [] => Raise (KeyError [label])
  | [s] => Return (Series s)
  | cs => Return (SubFrame cs)
  end.

(** Python's [==] between a cell value and a boolean key: [1 == True]. *)
Definition py_eq_bool (v : json) (b : bool) : bool :=
  match v with
  | JBool b' => Bool.eqb b b'
  | JInt z => Z.eqb z (if b then 1 else 0)
  | _ => false
  end.

Definition map_cell (mapper : list (bool * string)) (c : cell) : cell :=
  match c with
  | NaN => NaN
  | Val v =>
      match List.find (fun kv => py_eq_bool v (fst kv)) mapper with
      | Some kv => Val (JStr (snd kv))
      | None => NaN
      end
  end.

(** [Series.map(mapper)] for a dict with boolean keys. Boolean labels are
    never looked up in a numeric column; elsewhere the lookup is by
    Python equality and a value without an entry gives [NaN]. *)
Definition Series_map (mapper : list (bool * string)) (s : list cell) : list cell :=
  if is_numeric_dtype (infer_dtype s) then map (fun _ => NaN) s
  else map (map_cell mapper) s.

(** [.map(mapper)] on what [df[label]] returned. The lookup hashes the
    values of the column, and an array or an object cannot be hashed; a
    frame does not take a dict ([DataFrame.map] wants a callable). *)
Definition selection_map (mapper : list (bool * string)) (sel : selection)
  : outcome (list cell) :=
  match sel with
  | Series s =>
      if existsb is_nested s then Raise TypeError
      else Return (Series_map mapper s)
  | SubFrame _ => Raise TypeError
  end.

(** [df[label] = values]: replaces the column in place when the label
    exists, appends it otherwise. *)
Definition setitem (label : string) (values : list cell) (df : DataFrame) : DataFrame :=
  if existsb (has_label label) (columns df)
  then {| columns := map (fun c => if has_label label c then (label, values) else c)
                         (columns df);
          index := index df |}
  else {| columns := columns df ++ [(label, values)]; index := index df |}.

(** [df[[l1, ..., ln]]]: for each requested label, in order, every column
    carrying it; [KeyError] naming the labels that match nothing. *)
Definition getitem_list (ls : list string) (df : DataFrame) : outcome DataFrame :=
  match List.filter (fun l => negb (existsb (has_label l) (columns df))) ls with
  | [] => Return {| columns := flat_map (fun l => labelled l (columns df)) ls;
                    index := index df |}
  | missing => Raise (KeyError missing)
  end.

Definition cell_int (c : cell) : Z :=
  match c with
  | Val (JBool true) => 1
  | Val (JInt z) => z
  | _ => 0
  end.

Definition cell_text (c : cell) : string :=
  match c with Val (JStr s) => s | _ => EmptyString end.

Definition sum_Z (zs : list Z) : Z := fold_right Z.add 0%Z zs.

(** [Series.sum()], missing values skipped. Text concatenates with text
    only; numbers and booleans add up (exactly here; numpy wraps an
    [int64] sum beyond 2^63 and rounds a [float64] sum beyond 2^53);
    arrays and objects give no number (the script meets them at line 106
    first, which raises). *)
Definition Series_sum (s : list cell) : outcome pyval :=
  if existsb is_nested s then Raise TypeError
  else if existsb is_str s then
    if forallb is_str s then Return (PyStr (String.concat EmptyString (map cell_text s)))
    else Raise TypeError
  else
    match infer_dtype s with
    | float64 => Return (PyFloat (sum_Z (map cell_int s)))
    | _ => Return (PyInt (sum_Z (map cell_int s)))
    end.

(** [a - v] for an [int] on the left (exact, as [Series_sum] is). *)
Definition py_sub (a : Z) (v : pyval) : outcome pyval :=
  match v with
  | PyInt z => Return (PyInt (a - z))
  | PyFloat z => Return (PyFloat (a - z))
  | PyStr _ => Raise TypeError
  end.

(** [df.head(n)], that is [df.iloc[:n]]: a negative [n] drops the last
    [-n] rows. *)
Definition head_count (n : Z) (rows : nat) : nat :=
  if (0 <=? n)%Z then Nat.min (Z.to_nat n) rows
  else rows - Z.to_nat (- n).

Definition head (n : Z) (df : DataFrame) : DataFrame :=
  {| columns := map (fun c => (fst c, firstn (head_count n (index df)) (snd c)))
                    (columns df);
     index := head_count n (index df) |}.

(** The cells of row [i] under label [l]: one per column carrying [l]. *)
Definition cells_at (l : string) (i : nat) (df : DataFrame) : list cell :=
  map (fun c => nth i (snd c) NaN) (labelled l (columns df)).

(** Row [i] of a frame, one cell per column. *)
Definition row_at (df : DataFrame) (i : nat) : list cell :=
  map (fun c => nth i (snd c) NaN) (columns df).

Definition rows (df : DataFrame) : list (list cell) :=
  map (row_at df) (seq 0 (index df)).

(** ** The world and the [Py] monad *)

(** What [print] writes: a line of text, or the block that
    [DataFrame.to_string(index=False)] renders for a frame. *)
Inductive output : Type :=
| Line (text : string)
| Block (df : DataFrame).

(** What a call of [requests.get] meets. [Response] is an answer whose
    body is JSON: an array of objects, or, as [None], a value that has
    no length ([null], a number, [true] or [false]); [Undecodable] is an
    answer whose body is not JSON, with the message of the decoder. *)
Inductive http_reply : Type :=
| Unreachable (msg : string)
| ConnectTimedOut (msg : string)
| ReadTimedOut (msg : string)
| TransportError (msg : string)
| Response (status_code : Z) (reason : string) (body : option (list RawRecord))
| Undecodable (status_code : Z) (reason : string) (decode_error : string).

(** The console, the files (each as the records written to it, every
    record followed by the line terminator), the paths that cannot be
    opened for writing, what the service does, and the number of calls
    of [requests.get] so far (what [requests] sends inside one call,
    when it follows a redirect, is not counted). *)
Record World : Type := mkWorld {
  stdout : list output;
  files : gmap string (list string);
  readonly : list string;
  reply : http_reply;
  requests_sent : nat
}.

Definition Py (A : Type) : Type := World -> outcome A * World.

Definition ret {A : Type} (a : A) : Py A := fun w => (Return a, w).

Definition raise {A : Type} (e : exn) : Py A := fun w => (Raise e, w).

Definition bind {A B : Type} (m : Py A) (k : A -> Py B) : Py B :=
  fun w =>
    match m w with
    | (Return a, w') => k a w'
    | (Raise e, w') => (Raise e, w')
    end.

Definition lift {A : Type} (o : outcome A) : Py A := fun w => (o, w).

(** [try: body except ...: handler]; the handler declines what no
    [except] clause matches. *)
Definition try_except {A : Type} (body : Py A) (handler : exn -> option (Py A)) : Py A :=
  fun w =>
    match body w with
    | (Return a, w') => (Return a, w')
    | (Raise e, w') =>
        match handler e with
        | Some h => h w'
        | None => (Raise e, w')
        end
    end.

Declare Scope py_scope.
Delimit Scope py_scope with py.
Notation "x <- m ;; k" := (bind m (fun x => k))
  (at level 100, m at next level, right associativity) : py_scope.
Notation "m ;; k" := (bind m (fun _ => k))
  (at level 100, right associativity) : py_scope.
Open Scope py_scope.

Definition print (o : output) : Py unit :=
  fun w => (Return tt,
            {| stdout := stdout w ++ [o]; files := files w; readonly := readonly w;
               reply := reply w; requests_sent := requests_sent w |}).

Definition sys_exit {A : Type} (code : Z) : Py A := raise (SystemExit code).

(** The status the interpreter exits with. *)
Definition exit_status {A : Type} (o : outcome A) : Z :=
  match o with
  | Return _ => 0
  | Raise (SystemExit code) => code
  | Raise _ => 1
  end.

(** ** requests *)

(** The body of an answer: text that is not JSON, or the parsed value,
    a list of records or, as [None], a value without a length. *)
Inductive payload : Type :=
| NotJSON (decode_error : string)
| Parsed (value : option (list RawRecord)).

Record response : Type := mkResponse {
  status_code : Z;
  reason : string;
  url : string;
  body : payload
}.

(** The text after the first [?] of a URL, if any. *)
Fixpoint query_of (s : string) : option string :=
  match s with
  | EmptyString => None
  | String c s' => if Ascii.eqb c "?" then Some s' else query_of s'
  end.

(** The URL [requests] prepares for integer parameters (a target
    without fragment, keys that need no escaping): the parameters open
    the query, or are added to the one the target has. *)
Definition prepared_url (target : string) (params : dict Z) : string :=
  match params with
  | [] => target
  | _ =>
      target
      ++ match query_of target with
         | None => "?"
         | Some EmptyString => EmptyString
         | Some _ => "&"
         end
      ++ join "&" (map (fun kv => fst kv ++ "=" ++ str_int (snd kv)) params)
  end.

(** [requests.get(url, params=params, timeout=timeout)]: one call; the
    world decides what it meets within the time bound. *)
Definition requests_get (target : string) (params : dict Z) (timeout : Z) : Py response :=
  fun w =>
    let w' := {| stdout := stdout w; files := files w; readonly := readonly w;
                 reply := reply w; requests_sent := S (requests_sent w) |} in
    match reply w with
    | Unreachable msg => (Raise (RequestException ConnectionError msg), w')
    | ConnectTimedOut msg => (Raise (RequestException ConnectTimeout msg), w')
    | ReadTimedOut msg => (Raise (RequestException ReadTimeout msg), w')
    | TransportError msg => (Raise (RequestException OtherRequestException msg), w')
    | Response code rsn b =>
        (Return {| status_code := code; reason := rsn;
                   url := prepared_url target params; body := Parsed b |}, w')
    | Undecodable code rsn msg =>
        (Return {| status_code := code; reason := rsn;
                   url := prepared_url target params; body := NotJSON msg |}, w')
    end.

(** [response.raise_for_status()]: raises for 4xx and 5xx only. *)
Definition raise_for_status (r : response) : Py unit :=
  if ((400 <=? status_code r) && (status_code r <? 500))%Z then
    raise (RequestException HTTPError
             (str_int (status_code r) ++ " Client Error: " ++ reason r
              ++ " for url: " ++ url r))
  else if ((500 <=? status_code r) && (status_code r <? 600))%Z then
    raise (RequestException HTTPError
             (str_int (status_code r) ++ " Server Error: " ++ reason r
              ++ " for url: " ++ url r))
  else ret tt.

(** [response.json()]: the parsed value, or [JSONDecodeError] with the
    decoder's message when the body is not JSON. *)
Definition response_json (r : response) : Py (option (list RawRecord)) :=
  match body r with
  | Parsed v => ret v
  | NotJSON msg => raise (RequestException JSONDecodeError msg)
  end.

(** [len(data)] needs a value that has a length: [len(None)] and
    [len(5)] raise [TypeError]. *)
Definition sized (v : option (list RawRecord)) : outcome (list RawRecord) :=
  match v with
  | Some data => Return data
  | None => Raise TypeError
  end.

(** [repr] of a text without quotes or escapes, and of a dict of
    integers. *)
Definition repr_str (s : string) : string := "'" ++ s ++ "'".

Definition repr_list (ss : list string) : string :=
  "[" ++ join ", " (map repr_str ss) ++ "]".

Definition repr_params (params : dict Z) : string :=
  "{" ++ join ", " (map (fun kv => repr_str (fst kv) ++ ": " ++ str_int (snd kv)) params)
  ++ "}".

(** ** Configuration *)

Definition API_URL : string := "https://jsonplaceholder.typicode.com/todos".
Definition PARAMS : dict Z := [("_limit", 20%Z)].
Definition OUTPUT : string := "todos.csv".

(** ** Step 1: fetch *)

(** The [except] clauses of [fetch_todos], tried in order. [rsp] is the
    local [response], bound once [requests.get] has returned. *)
Definition on_request_error (rsp : option response) (e : exn)
  : option (Py (list RawRecord)) :=
  match e with
  | RequestException cls msg =>
      if isinstance_ConnectionError cls then
        Some (print (Line "❌  ERROR: Could not connect. Check your internet connection.") ;;
              sys_exit 1)
      else if isinstance_Timeout cls then
        Some (print (Line "❌  ERROR: The request timed out. The server may be slow.") ;;
              sys_exit 1)
      else if isinstance_HTTPError cls then
        Some (print (Line ("❌  HTTP ERROR: " ++ msg)) ;;
              match rsp with
              | Some r =>
                  print (Line ("    Status Code: " ++ str_int (status_code r))) ;;
                  sys_exit 1
              | None => raise UnboundLocalError
              end)
      else
        Some (print (Line ("❌  UNEXPECTED ERROR: " ++ msg)) ;;
              sys_exit 1)
  | _ => None
  end.

Definition fetch_todos (target : string) (params : dict Z) : Py (list RawRecord) :=
  print (Line (nl ++ "📡  Fetching data from: " ++ target)) ;;
  print (Line ("    Parameters        : " ++ repr_params params ++ nl)) ;;
  try_except
    (rsp <- requests_get target params 10 ;;
     try_except
       (raise_for_status rsp ;;
        v <- response_json rsp ;;
        data <- lift (sized v) ;;
        print (Line ("✅  Success! Received " ++ str_int (Z.of_nat (length data))
                     ++ " records.")) ;;
        ret data)
       (on_request_error (Some rsp)))
    (on_request_error None).

(** ** Step 2: transform *)

Definition RENAME : dict string :=
  [("userId", "user_id"); ("id", "todo_id"); ("title", "task");
   ("completed", "is_completed")].

Definition STATUS : list (bool * string) :=
  [(true, "Done ✅"); (false, "Pending ⏳")].

Definition COLUMNS : list string :=
  ["todo_id"; "user_id"; "task"; "is_completed"; "status"].

(** Lines 95-109 of [process_data]: build, rename, derive, reorder. *)
Definition build_table (data : list RawRecord) : outcome DataFrame :=
  let df := pd_DataFrame data in
  let df := rename RENAME df in
  obind (getitem "is_completed" df) (fun sel =>
  obind (selection_map STATUS sel) (fun status =>
  let df := setitem "status" status df in
  getitem_list COLUMNS df)).

Record Summary : Type := mkSummary {
  total : Z;
  completed : pyval;
  pending : pyval
}.

(** [.sum()] on what [df[label]] returned. The sub-frame branch is never
    taken by [process_data] (see [summary_selects_series]): line 106 has
    already required a single [is_completed] column. *)
Definition selection_sum (sel : selection) : outcome pyval :=
  match sel with
  | Series s => Series_sum s
  | SubFrame _ => Raise TypeError
  end.

(** Lines 112-114 of [process_data]: the summary statistics. *)
Definition summary_statistics (df : DataFrame) : outcome Summary :=
  let total := len df in
  obind (getitem "is_completed" df) (fun sel =>
  obind (selection_sum sel) (fun completed =>
  obind (py_sub total completed) (fun pending =>
  Return {| total := total; completed := completed; pending := pending |}))).

Definition process_data (data : list RawRecord) : Py DataFrame :=
  print (Line (nl ++ "🔧  Processing data with pandas...")) ;;
  df <- lift (build_table data) ;;
  s <- lift (summary_statistics df) ;;
  print (Line ("    Total tasks   : " ++ str_int (total s))) ;;
  print (Line ("    Completed     : " ++ py_str (completed s))) ;;
  print (Line ("    Pending       : " ++ py_str (pending s))) ;;
  ret df.

(** ** Step 3: persist *)

(** Minimal quoting of the [csv] writer: a field is quoted when it holds
    the delimiter, the quote character or a character of the line
    terminator, which is the line feed; a carriage return on its own is
    written as it is. Quotes inside a quoted field are doubled. *)
Definition needs_quoting (s : string) : bool :=
  contains_char (ascii_of_nat 44) s || contains_char (ascii_of_nat 34) s
  || contains_char (ascii_of_nat 10) s.

Fixpoint double_quotes (s : string) : string :=
  match s with
  | EmptyString => EmptyString
  | String c s' =>
      if Ascii.eqb c (ascii_of_nat 34) then String c (String c (double_quotes s'))
      else String c (double_quotes s')
  end.

Definition csv_field (s : string) : string :=
  if needs_quoting s then dquote ++ double_quotes s ++ dquote else s.

(** One record of the file; a lone empty field is written quoted. *)
Definition csv_line (fields : list string) : string :=
  match fields with
  | [EmptyString] => dquote ++ dquote
  | _ => join "," (map csv_field fields)
  end.

(** The text of a cell in a column of dtype [d]; missing values are
    written as the empty text. *)
Definition format_cell (d : dtype) (c : cell) : string :=
  match c with
  | NaN | Val JNull => EmptyString
  | Val (JBool true) => "True"
  | Val (JBool false) => "False"
  | Val (JInt z) => match d with float64 => str_float z | _ => str_int z end
  | Val (JStr s) => s
  | Val (JNested text) => text
  end.

Definition format_column (c : string * list cell) : list string :=
  map (format_cell (infer_dtype (snd c))) (snd c).

(** The records [df.to_csv(path, index=False)] writes: the header, then
    one record per row. *)
Definition to_csv (df : DataFrame) : list string :=
  csv_line (labels df)
  :: map (fun i => csv_line (map (fun c => nth i (format_column c) EmptyString) (columns df)))
         (seq 0 (index df)).

(** A text can be encoded as UTF-8 unless it holds a surrogate: no byte
    ED is followed by a byte from A0 on. *)
Fixpoint encodable (s : string) : bool :=
  match s with
  | EmptyString => true
  | String c s' =>
      match s' with
      | String c' _ =>
          negb (Nat.eqb (nat_of_ascii c) 237 && Nat.leb 160 (nat_of_ascii c'))
      | EmptyString => true
      end && encodable s'
  end.

(** The records that reach the file: those before the first one that
    cannot be encoded. *)
Fixpoint written (records : list string) : list string :=
  match records with
  | [] => []
  | r :: rest => if encodable r then r :: written rest else []
  end.

(** Opening [path] for writing and writing [content]. [OSError] is
    raised, and nothing changes, when the path cannot be opened (it is
    one of the [readonly] paths of the world). Otherwise the file is
    emptied and the records are written one after the other; a record
    that cannot be encoded stops the writing with [UnicodeEncodeError]
    and the file keeps the records before it. *)
Definition write_file (path : string) (content : list string) : Py unit :=
  fun w =>
    if existsb (String.eqb path) (readonly w) then (Raise OSError, w)
    else if forallb encodable content then
      (Return tt,
       {| stdout := stdout w; files := <[path := content]> (files w);
          readonly := readonly w; reply := reply w;
          requests_sent := requests_sent w |})
    else
      (Raise UnicodeEncodeError,
       {| stdout := stdout w; files := <[path := written content]> (files w);
          readonly := readonly w; reply := reply w;
          requests_sent := requests_sent w |}).

Definition save_to_csv (df : DataFrame) (filename : string) : Py unit :=
  write_file filename (to_csv df) ;;
  print (Line (nl ++ "💾  Data saved to '" ++ filename ++ "'")) ;;
  print (Line ("    Rows    : " ++ str_int (len df))) ;;
  print (Line ("    Columns : " ++ repr_list (labels df))).

(** ** Step 4: preview *)

(** The default of the parameter [n]. *)
Definition preview_default_n : Z := 5.

Definition preview (df : DataFrame) (n : Z) : Py unit :=
  print (Line (nl ++ "📋  Preview (first " ++ str_int n ++ " rows):" ++ nl)) ;;
  print (Block (head n df)) ;;
  print (Line (nl ++ repeat_str "─" 70)).

(** ** Entry point *)

Definition main : Py unit :=
  print (Line (repeat_str "=" 70)) ;;
  print (Line "  Python API Toolkit – Fetch & Save Todo Data") ;;
  print (Line "  Moringa School Capstone | February 2026") ;;
  print (Line (repeat_str "=" 70)) ;;
  raw_data <- fetch_todos API_URL PARAMS ;;
  df <- process_data raw_data ;;
  save_to_csv df OUTPUT ;;
  preview df preview_default_n ;;
  print (Line (nl ++ "🎉  Done! Open 'todos.csv' to see your data.")) ;;
  print (Line (repeat_str "=" 70 ++ nl)).

(** ** Vocabulary of the properties *)

(** The record of the scenario [{"userId":1,"id":1,"title":"A","completed":true}]. *)
Definition scenario_record : RawRecord :=
  [("userId", JInt 1); ("id", JInt 1); ("title", JStr "A"); ("completed", JBool true)].

(** A record whose [completed] is the number 2. *)
Definition numeric_record : RawRecord :=
  [("userId", JInt 1); ("id", JInt 1); ("title", JStr "A"); ("completed", JInt 2)].


(** A record without [completed]. *)
Definition partial_record : RawRecord :=
  [("userId", JInt 1); ("id", JInt 2); ("title", JStr "B")].


(** A record that has both [id] and [todo_id]. *)
Definition colliding_record : RawRecord :=
  [("id", JInt 1); ("todo_id", JInt 7); ("userId", JInt 1); ("title", JStr "A");
   ("completed", JBool true)].




(** A record whose [title] holds a carriage return between [a] and [b]. *)
Definition cr_record : RawRecord :=
  [("userId", JInt 1); ("id", JInt 1);
   ("title", JStr (String "a" (String (ascii_of_nat 13) "b")));
   ("completed", JBool true)].


(** A world with an empty console and file system, every path writable,
    in which the service answers [r]. *)
Definition fresh_world (r : http_reply) : World :=
  {| stdout := []; files := ∅; readonly := []; reply := r; requests_sent := 0 |}.

Definition HEADER : string := "todo_id,user_id,task,is_completed,status".

(** The status rule with labels [done] and [pending]: in every row,
    [status] is [done] exactly when [is_completed] is true, and [pending]
    otherwise. *)
Definition status_follows (done pending : string) (df : DataFrame) : Prop :=
  forall i c st,
    (i < index df)%nat ->
    cells_at "is_completed" i df = [c] ->
    cells_at "status" i df = [st] ->
    (st = Val (JStr done) <-> c = Val (JBool true)) /\
    (c <> Val (JBool true) -> st = Val (JStr pending)).

(** The two-valued lookup: the status of a cell of [is_completed]. *)
Definition status_for (c : cell) : cell :=
  match c with
  | Val (JBool true) => Val (JStr "Done ✅")
  | Val (JBool false) => Val (JStr "Pending ⏳")
  | _ => NaN
  end.

(** The cell holds the number 0 or 1, which Python equates with [False]
    and [True]. *)
Definition is_bit (c : cell) : bool :=
  match c with
  | Val (JInt 0) | Val (JInt 1) => true
  | _ => false
  end.

Definition is_true_cell (c : cell) : bool :=
  match c with Val (JBool true) => true | _ => false end.

(** The number a Python value stands for. *)
Definition value_of (v : pyval) : Z :=
  match v with
  | PyInt z | PyFloat z => z
  | PyStr _ => 0
  end.

Definition is_number (v : pyval) : bool :=
  match v with PyStr _ => false | _ => true end.

(** The failure kinds of the fetch phase. *)
Inductive failure_kind : Type :=
| ConnectivityError
| TimeoutError
| HTTPStatusError (code : Z)
| GenericRequestError (cause : string).

Definition is_error_status (code : Z) : bool :=
  ((400 <=? code) && (code <? 600))%Z.

(** What the fetch phase comes to: a failure of one of the four kinds,
    a crash (an exception no [except] clause takes), or the records. *)
Inductive fetch_result : Type :=
| Fails (k : failure_kind)
| Crashes
| Fetches (data : list RawRecord).

(** What the fetch comes to, reply by reply. An answer is an HTTP
    failure when its status is 4xx or 5xx. With another status, a body
    that is not JSON is a generic failure whose cause is the message of
    the decoder, a body without a length is a crash, and an array is
    fetched. *)
Definition fetch_outcome (r : http_reply) : fetch_result :=
  match r with
  | Unreachable _ | ConnectTimedOut _ => Fails ConnectivityError
  | ReadTimedOut _ => Fails TimeoutError
  | TransportError cause => Fails (GenericRequestError cause)
  | Response code _ b =>
      if is_error_status code then Fails (HTTPStatusError code)
      else match b with
           | Some data => Fetches data
           | None => Crashes
           end
  | Undecodable code _ cause =>
      if is_error_status code then Fails (HTTPStatusError code)
      else Fails (GenericRequestError cause)
  end.


(** What the console shows for a failure kind. *)
Definition failure_report (k : failure_kind) (shown : list output) : Prop :=
  match k with
  | ConnectivityError =>
      shown = [Line "❌  ERROR: Could not connect. Check your internet connection."]
  | TimeoutError =>
      shown = [Line "❌  ERROR: The request timed out. The server may be slow."]
  | HTTPStatusError code =>
      exists msg, shown = [Line ("❌  HTTP ERROR: " ++ msg);
                           Line ("    Status Code: " ++ str_int code)]
  | GenericRequestError cause =>
      shown = [Line ("❌  UNEXPECTED ERROR: " ++ cause)]
  end.

(** The two lines [fetch_todos] prints before the request. *)
Definition fetch_intro (target : string) (params : dict Z) : list output :=
  [Line (nl ++ "📡  Fetching data from: " ++ target);
   Line ("    Parameters        : " ++ repr_params params ++ nl)].

(** The four lines [main] prints first. *)
Definition banner : list output :=
  [Line (repeat_str "=" 70);
   Line "  Python API Toolkit – Fetch & Save Todo Data";
   Line "  Moringa School Capstone | February 2026";
   Line (repeat_str "=" 70)].




(** The world after one call of [requests.get]. *)
Definition called (w : World) : World :=
  {| stdout := stdout w; files := files w; readonly := readonly w;
     reply := reply w; requests_sent := S (requests_sent w) |}.

(** The inner [try] of [fetch_todos]: what runs once [requests.get] has
    returned the response [rsp]. *)
Definition fetch_body (rsp : response) : Py (list RawRecord) :=
  try_except
    (raise_for_status rsp ;;
     v <- response_json rsp ;;
     data <- lift (sized v) ;;
     print (Line ("✅  Success! Received " ++ str_int (Z.of_nat (length data))
                  ++ " records.")) ;;
     ret data)
    (on_request_error (Some rsp)).

(** The world once [main] has printed its banner. *)
Definition banner_world (w : World) : World :=
  {| stdout := (stdout w ++ banner)%list; files := files w; readonly := readonly w;
     reply := reply w; requests_sent := requests_sent w |}.

(** Steps 2 to 4 of [main] and its closing lines. *)
Definition after_fetch (raw_data : list RawRecord) : Py unit :=
  df <- process_data raw_data ;;
  save_to_csv df OUTPUT ;;
  preview df preview_default_n ;;
  print (Line (nl ++ "🎉  Done! Open 'todos.csv' to see your data.")) ;;
  print (Line (repeat_str "=" 70 ++ nl)).

(** The computation [m] leaves the part [f] of the world as it was. *)
Definition keeps {A X : Type} (f : World -> X) (m : Py A) : Prop :=
  forall w, f (snd (m w)) = f w.

(** The table the scenario record is transformed into. *)
Definition scenario_table : DataFrame :=
  {| columns := [("todo_id", [Val (JInt 1)]); ("user_id", [Val (JInt 1)]);
                 ("task", [Val (JStr "A")]);
                 ("is_completed", [Val (JBool true)]);
                 ("status", [Val (JStr "Done ✅")])];
     index := 1 |}.

(** The worlds the scenario goes through, from a fresh one: after the
    transform, and after the save. *)
Definition scenario_transformed : World :=
  snd (process_data [scenario_record] (fresh_world (Unreachable EmptyString))).

Definition scenario_saved : World :=
  snd (save_to_csv scenario_table OUTPUT scenario_transformed).

(** The cell a record contributes to the column of key [k]. *)
Definition field (k : string) (r : RawRecord) : cell :=
  match dict_get k r with Some v => Val v | None => NaN end.

(** The cell holds the text [t]. *)
Definition is_text (t : string) (c : cell) : bool :=
  match c with Val (JStr s) => String.eqb s t | _ => false end.

Definition is_nan (c : cell) : bool :=
  match c with NaN => true | _ => false end.

(** The records use their keys cleanly: each source key of the renaming
    occurs, and no record already has a key with a renamed name. *)
Definition clean_keys (data : list RawRecord) : Prop :=
  key_used "id" data /\ key_used "userId" data /\
  key_used "title" data /\ key_used "completed" data /\
  ~ key_used "todo_id" data /\ ~ key_used "user_id" data /\
  ~ key_used "task" data /\ ~ key_used "is_completed" data.

(** Two records agree on the four keys the transform reads. *)
Definition same_fields (r r' : RawRecord) : Prop :=
  field "id" r = field "id" r' /\ field "userId" r = field "userId" r' /\
  field "title" r = field "title" r' /\ field "completed" r = field "completed" r'.

(** The table of records with clean keys. *)
Definition clean_table (data : list RawRecord) : DataFrame :=
  {| columns := [("todo_id", column_of data "id");
                 ("user_id", column_of data "userId");
                 ("task", column_of data "title");
                 ("is_completed", column_of data "completed");
                 ("status", Series_map STATUS (column_of data "completed"))];
     index := length data |}.

(** The scenario record with its keys in another order and one more key. *)
Definition reordered_record : RawRecord :=
  [("completed", JBool true); ("note", JStr "x"); ("title", JStr "A");
   ("id", JInt 1); ("userId", JInt 1)].

(** A value that cannot be counted: a text, an array or an object. *)
Definition uncountable (v : json) : bool :=
  match v with JStr _ | JNested _ => true | _ => false end.

(** No record has an uncountable value under the key [k]. *)
Definition countable_under (k : string) (data : list RawRecord) : Prop :=
  forall r v, In r data -> dict_get k r = Some v -> uncountable v = false.


(** The world [w] with [lines] appended to its console. *)
Definition printed (lines : list output) (w : World) : World :=
  {| stdout := (stdout w ++ lines)%list; files := files w; readonly := readonly w;
     reply := reply w; requests_sent := requests_sent w |}.

(** What [fetch_todos] prints once the records have arrived. *)
Definition fetch_success_line (data : list RawRecord) : output :=
  Line ("✅  Success! Received " ++ str_int (Z.of_nat (length data)) ++ " records.").

(** The first line [process_data] prints. *)
Definition processing_line : output :=
  Line (nl ++ "🔧  Processing data with pandas...").

(** The three lines of the summary. *)
Definition summary_lines (s : Summary) : list output :=
  [Line ("    Total tasks   : " ++ str_int (total s));
   Line ("    Completed     : " ++ py_str (completed s));
   Line ("    Pending       : " ++ py_str (pending s))].

(** What [save_to_csv] prints after writing the file. *)
Definition save_lines (df : DataFrame) (filename : string) : list output :=
  [Line (nl ++ "💾  Data saved to '" ++ filename ++ "'");
   Line ("    Rows    : " ++ str_int (len df));
   Line ("    Columns : " ++ repr_list (labels df))].



(** A world like [fresh_world r] in which the output path cannot be
    opened for writing. *)
Definition locked_world (r : http_reply) : World :=
  {| stdout := []; files := ∅; readonly := [OUTPUT]; reply := r; requests_sent := 0 |}.

(** A record typed as the service documents it: integer [id] and
    [userId], a [title] that needs no quoting and can be encoded, a
    boolean [completed]. *)
Definition typed_record (r : RawRecord) : Prop :=
  exists i u t b,
    dict_get "id" r = Some (JInt i) /\ dict_get "userId" r = Some (JInt u) /\
    dict_get "title" r = Some (JStr t) /\ dict_get "completed" r = Some (JBool b) /\
    needs_quoting t = false /\ encodable t = true.

(** The text of a cell outside a float column. *)
Definition cell_str (c : cell) : string := format_cell object_ c.

(** The line of the output file for a typed record. *)
Definition record_line (r : RawRecord) : string :=
  join "," [cell_str (field "id" r); cell_str (field "userId" r);
            cell_str (field "title" r); cell_str (field "completed" r);
            cell_str (status_for (field "completed" r))].

(** The text of a file that holds [records]: each record is followed
    by the line terminator. *)
Fixpoint file_text (records : list string) : string :=
  match records with
  | [] => EmptyString
  | r :: rest => r ++ nl ++ file_text rest
  end.

(** The number of rows a CSV reader finds in a text. Outside quotes a
    row ends at a line feed, at a carriage return, or at the two in a
    row; a quote opens or closes a quoted stretch. [q]: inside quotes;
    [cr]: the last character was a carriage return that ended a row;
    [started]: the current row has a character. *)
Fixpoint count_rows (s : string) (q cr started : bool) : nat :=
  match s with
  | EmptyString => if started then 1 else 0
  | String c s' =>
      if q then count_rows s' (negb (Ascii.eqb c (ascii_of_nat 34))) false true
      else if Ascii.eqb c (ascii_of_nat 34) then count_rows s' true false true
      else if Ascii.eqb c (ascii_of_nat 10) then
        if cr then count_rows s' false false false
        else S (count_rows s' false false false)
      else if Ascii.eqb c (ascii_of_nat 13) then S (count_rows s' false true false)
      else count_rows s' false false true
  end.

Definition csv_rows (text : string) : nat := count_rows text false false false.

(** Reading [s] from inside ([q]) or outside quotes meets no row end;
    the result tells whether the reader ends inside quotes. *)
Fixpoint quiet (s : string) (q : bool) : option bool :=
  match s with
  | EmptyString => Some q
  | String c s' =>
      if q then quiet s' (negb (Ascii.eqb c (ascii_of_nat 34)))
      else if Ascii.eqb c (ascii_of_nat 34) then quiet s' true
      else if Ascii.eqb c (ascii_of_nat 10) || Ascii.eqb c (ascii_of_nat 13) then None
      else quiet s' false
  end.

(** The text has no carriage return. *)
Definition no_cr (s : string) : Prop := contains_char (ascii_of_nat 13) s = false.

(** No text value of the records, and no array or object as Python
    writes it, has a carriage return. *)
Definition no_carriage_return (data : list RawRecord) : Prop :=
  forall r k v, In r data -> dict_get k r = Some v -> no_cr (cell_str (Val v)).

(** Every integer of the records is at most 2^53 in absolute value: the
    range in which a float64 column holds the integers themselves. *)
Definition small_ints (data : list RawRecord) : Prop :=
  forall r k z, In r data -> dict_get k r = Some (JInt z) -> (Z.abs z <= 2 ^ 53)%Z.


(** * Properties *)

(** ** Lists of keys *)

Lemma first_seen_In (k : string) (ks : list string) :
  In k (first_seen ks) <-> In k ks.
Proof.
  induction ks as [|a ks IH]; simpl; [tauto|].
  rewrite List.filter_In, IH.
  destruct (String.eqb_spec a k) as [->|Hne]; simpl.
  - split; auto.
  - split.
    + intros [H|[H _]]; auto.
    + intros [H|H]; auto.
Qed.

Lemma first_seen_NoDup (ks : list string) : List.NoDup (first_seen ks).
Proof.
  induction ks as [|a ks IH]; simpl; constructor.
  - rewrite List.filter_In. intros [_ H].
    rewrite String.eqb_refl in H. discriminate.
  - apply List.NoDup_filter. exact IH.
Qed.

(** In a duplicate-free list, a test that only [a] can pass selects
    nothing or [a] alone. *)
Lemma filter_only (p : string -> bool) (a : string) (ks : list string) :
  List.NoDup ks ->
  (forall k, In k ks -> p k = true -> k = a) ->
  List.filter p ks = [] \/ List.filter p ks = [a].
Proof.
  induction ks as [|x ks IH]; intros Hnd Hp; simpl; [now left|].
  inversion Hnd as [|? ? Hx Hnd']; subst.
  destruct (p x) eqn:Hpx.
  - assert (x = a) as -> by (apply Hp; [now left|exact Hpx]).
    right. f_equal.
    destruct (List.filter p ks) as [|y t] eqn:Hf; [reflexivity|].
    assert (Hy : In y (List.filter p ks)) by (rewrite Hf; now left).
    apply List.filter_In in Hy as [Hy1 Hy2].
    assert (y = a) as -> by (apply Hp; [now right|exact Hy2]).
    contradiction.
  - apply IH; [exact Hnd'|]. intros k Hk. apply Hp. now right.
Qed.

Lemma filter_exactly (p : string -> bool) (a : string) (ks : list string) :
  List.NoDup ks -> In a ks -> p a = true ->
  (forall k, In k ks -> p k = true -> k = a) ->
  List.filter p ks = [a].
Proof.
  intros Hnd Ha Hpa Hp.
  destruct (filter_only p a ks Hnd Hp) as [H|H]; [|exact H].
  assert (Hin : In a (List.filter p ks)) by (apply List.filter_In; auto).
  rewrite H in Hin. destruct Hin.
Qed.

(** ** Frames: selecting, renaming, assigning, projecting *)

Lemma labelled_twice (a b : string) (cols : list (string * list cell)) :
  labelled a (labelled b cols) = if String.eqb a b then labelled a cols else [].
Proof.
  unfold labelled, has_label.
  induction cols as [|c cols IH]; simpl.
  - now destruct (String.eqb a b).
  - destruct (String.eqb_spec (fst c) b) as [Hb|Hb];
      destruct (String.eqb_spec (fst c) a) as [Ha|Ha];
      destruct (String.eqb_spec a b) as [Hab|Hab];
      simpl; try congruence;
      try (destruct (String.eqb_spec (fst c) a); try congruence);
      rewrite IH; reflexivity.
Qed.

Lemma labelled_app (l : string) (xs ys : list (string * list cell)) :
  labelled l (xs ++ ys)%list = (labelled l xs ++ labelled l ys)%list.
Proof. apply List.filter_app. Qed.

Lemma labelled_flat_map (l : string) (ls : list string) (cols : list (string * list cell)) :
  labelled l (flat_map (fun l' => labelled l' cols) ls)
  = flat_map (fun l' => if String.eqb l l' then labelled l cols else []) ls.
Proof.
  induction ls as [|l' ls IH]; simpl; [reflexivity|].
  rewrite labelled_app, labelled_twice, IH. reflexivity.
Qed.

Lemma labelled_fst (l : string) (cols : list (string * list cell)) (c : string * list cell) :
  In c (labelled l cols) -> fst c = l.
Proof.
  unfold labelled. rewrite List.filter_In. intros [_ H].
  unfold has_label in H. now apply String.eqb_eq.
Qed.

Lemma existsb_labelled (l : string) (cols : list (string * list cell)) :
  existsb (has_label l) cols = negb (Nat.eqb (length (labelled l cols)) 0).
Proof.
  unfold labelled. induction cols as [|c cols IH]; simpl; [reflexivity|].
  destruct (has_label l c); simpl; [reflexivity|exact IH].
Qed.

(** Selecting in a frame built over a list of keys. *)
Lemma labelled_map_keys (l : string) (f : string -> string) (g : string -> list cell)
      (ks : list string) :
  labelled l (map (fun k => (f k, g k)) ks)
  = map (fun k => (f k, g k)) (List.filter (fun k => String.eqb (f k) l) ks).
Proof.
  unfold labelled, has_label.
  induction ks as [|k ks IH]; simpl; [reflexivity|].
  destruct (String.eqb (f k) l); simpl; rewrite IH; reflexivity.
Qed.

Lemma labelled_setitem_other (l l' : string) (v : list cell) (df : DataFrame) :
  l <> l' ->
  labelled l (columns (setitem l' v df)) = labelled l (columns df).
Proof.
  intros Hne. unfold setitem.
  destruct (existsb (has_label l') (columns df)); simpl.
  - unfold labelled, has_label.
    induction (columns df) as [|c cols IH]; simpl; [reflexivity|].
    destruct (String.eqb_spec (fst c) l') as [Hc|Hc]; simpl.
    + destruct (String.eqb_spec l' l) as [E|_]; [congruence|].
      destruct (String.eqb_spec (fst c) l) as [E|_]; [congruence|]. exact IH.
    + destruct (String.eqb (fst c) l); rewrite IH; reflexivity.
  - rewrite labelled_app. simpl. unfold has_label. simpl.
    destruct (String.eqb_spec l' l) as [E|_]; [congruence|].
    apply List.app_nil_r.
Qed.

Lemma labelled_replace (l : string) (v : list cell) (cols : list (string * list cell)) :
  labelled l (map (fun c => if has_label l c then (l, v) else c) cols)
  = map (fun _ => (l, v)) (labelled l cols).
Proof.
  unfold labelled, has_label.
  induction cols as [|c cols IH]; simpl; [reflexivity|].
  destruct (String.eqb (fst c) l) eqn:E; simpl.
  - rewrite String.eqb_refl. simpl. now rewrite IH.
  - rewrite E. exact IH.
Qed.

Lemma labelled_setitem_same (l : string) (v : list cell) (df : DataFrame) :
  labelled l (columns (setitem l v df))
  = match labelled l (columns df) with
    | [] => [(l, v)]
    | cs => map (fun _ => (l, v)) cs
    end.
Proof.
  unfold setitem. rewrite existsb_labelled.
  destruct (labelled l (columns df)) as [|c0 cs0] eqn:Hsel.
  - cbn [length Nat.eqb negb columns].
    rewrite labelled_app, Hsel. simpl. unfold has_label. simpl.
    now rewrite String.eqb_refl.
  - cbn [length Nat.eqb negb columns].
    rewrite labelled_replace, Hsel. reflexivity.
Qed.

Lemma index_rename (m : dict string) (df : DataFrame) : index (rename m df) = index df.
Proof. reflexivity. Qed.

Lemma index_setitem (l : string) (v : list cell) (df : DataFrame) :
  index (setitem l v df) = index df.
Proof. unfold setitem. now destruct (existsb (has_label l) (columns df)). Qed.

Lemma getitem_list_inv (ls : list string) (df df' : DataFrame) :
  getitem_list ls df = Return df' ->
  df' = {| columns := flat_map (fun l => labelled l (columns df)) ls; index := index df |}
  /\ forall l, In l ls -> labelled l (columns df) <> [].
Proof.
  unfold getitem_list.
  destruct (List.filter _ ls) as [|m ms] eqn:Hf; [|discriminate].
  intros H. inversion H; subst. split; [reflexivity|].
  intros l Hl Hnone.
  assert (Hin : In l (List.filter
             (fun l => negb (existsb (has_label l) (columns df))) ls)).
  { apply List.filter_In. split; [exact Hl|].
    rewrite existsb_labelled, Hnone. reflexivity. }
  rewrite Hf in Hin. destruct Hin.
Qed.

Lemma getitem_list_ok (ls : list string) (df : DataFrame) :
  (forall l, In l ls -> labelled l (columns df) <> []) ->
  getitem_list ls df
  = Return {| columns := flat_map (fun l => labelled l (columns df)) ls; index := index df |}.
Proof.
  intros H. unfold getitem_list.
  destruct (List.filter _ ls) as [|m ms] eqn:Hf; [reflexivity|].
  assert (Hin : In m (List.filter
             (fun l => negb (existsb (has_label l) (columns df))) ls))
    by (rewrite Hf; now left).
  apply List.filter_In in Hin as [Hm Hneg].
  rewrite existsb_labelled in Hneg.
  specialize (H m Hm).
  destruct (labelled m (columns df)); [congruence|discriminate].
Qed.

(** ** The frame [process_data] builds *)

Lemma keys_of_In (k : string) (data : list RawRecord) :
  In k (keys_of data) <-> key_used k data.
Proof.
  unfold keys_of, key_used. rewrite first_seen_In, List.in_concat.
  split.
  - intros (ks & Hks & Hk). apply List.in_map_iff in Hks as (r & <- & Hr). eauto.
  - intros (r & Hr & Hk). exists (dict_keys r). split; [|exact Hk].
    apply List.in_map_iff. eauto.
Qed.

Lemma keys_of_NoDup (data : list RawRecord) : List.NoDup (keys_of data).
Proof. apply first_seen_NoDup. Qed.

Lemma dict_get_In {V : Type} (k : string) (v : V) (d : dict V) :
  dict_get k d = Some v -> In (k, v) d.
Proof.
  induction d as [|[k' v'] d IH]; simpl; [discriminate|].
  destruct (String.eqb_spec k k') as [->|_].
  - intros H. inversion H; subst. now left.
  - intros H. right. auto.
Qed.

(** A label after renaming is the old label or the image of a renamed
    one. *)
Lemma rename_label_inv (m : dict string) (k l : string) :
  rename_label m k = l -> k = l \/ In (k, l) m.
Proof.
  unfold rename_label. destruct (dict_get k m) as [l'|] eqn:Hg.
  - intros <-. right. now apply dict_get_In.
  - intros <-. now left.
Qed.

Lemma renamed_to_status (k : string) :
  rename_label RENAME k = "status" -> k = "status".
Proof.
  intros H. apply rename_label_inv in H as [H|H]; [exact H|].
  cbn in H. repeat (destruct H as [H|H]; [inversion H|]). destruct H.
Qed.

Lemma renamed_to_is_completed (k : string) :
  rename_label RENAME k = "is_completed" -> k = "completed" \/ k = "is_completed".
Proof.
  intros H. apply rename_label_inv in H as [H|H]; [now right|].
  cbn in H. repeat (destruct H as [H|H]; [inversion H; auto|]). destruct H.
Qed.

Lemma renamed_to_todo_id (k : string) :
  rename_label RENAME k = "todo_id" -> k = "id" \/ k = "todo_id".
Proof.
  intros H. apply rename_label_inv in H as [H|H]; [now right|].
  cbn in H. repeat (destruct H as [H|H]; [inversion H; auto|]). destruct H.
Qed.

Lemma renamed_to_user_id (k : string) :
  rename_label RENAME k = "user_id" -> k = "userId" \/ k = "user_id".
Proof.
  intros H. apply rename_label_inv in H as [H|H]; [now right|].
  cbn in H. repeat (destruct H as [H|H]; [inversion H; auto|]). destruct H.
Qed.

Lemma renamed_to_task (k : string) :
  rename_label RENAME k = "task" -> k = "title" \/ k = "task".
Proof.
  intros H. apply rename_label_inv in H as [H|H]; [now right|].
  cbn in H. repeat (destruct H as [H|H]; [inversion H; auto|]). destruct H.
Qed.

Lemma columns_renamed (data : list RawRecord) :
  columns (rename RENAME (pd_DataFrame data))
  = map (fun k => (rename_label RENAME k, column_of data k)) (keys_of data).
Proof. unfold rename, pd_DataFrame. simpl. now rewrite List.map_map. Qed.

Lemma labelled_renamed (l : string) (data : list RawRecord) :
  labelled l (columns (rename RENAME (pd_DataFrame data)))
  = map (fun k => (rename_label RENAME k, column_of data k))
        (List.filter (fun k => String.eqb (rename_label RENAME k) l) (keys_of data)).
Proof. rewrite columns_renamed. apply labelled_map_keys. Qed.

(** The renamed frame has at most one [status] column. *)
Lemma renamed_status_columns (data : list RawRecord) :
  (length (labelled "status" (columns (rename RENAME (pd_DataFrame data)))) <= 1)%nat.
Proof.
  rewrite labelled_renamed, List.length_map.
  destruct (filter_only (fun k => String.eqb (rename_label RENAME k) "status")
              "status" (keys_of data) (keys_of_NoDup data)) as [H|H].
  - intros k _ Hk. apply renamed_to_status. now apply String.eqb_eq.
  - rewrite H. simpl. lia.
  - rewrite H. simpl. lia.
Qed.

Lemma length_column_of (data : list RawRecord) (k : string) :
  length (column_of data k) = length data.
Proof. unfold column_of. apply List.length_map. Qed.

Lemma length_Series_map (m : list (bool * string)) (s : list cell) :
  length (Series_map m s) = length s.
Proof.
  unfold Series_map. destruct (is_numeric_dtype (infer_dtype s)); apply List.length_map.
Qed.

(** What a successful [build_table] returns: the [is_completed] column is
    the column of one source key, [status] is derived from it, both are
    unique, and the frame is the projection on [COLUMNS]. *)
Lemma build_table_inv (data : list RawRecord) (df : DataFrame) :
  build_table data = Return df ->
  exists k0,
    In k0 (keys_of data) /\
    (k0 = "completed" \/ k0 = "is_completed") /\
    labelled "is_completed" (columns (rename RENAME (pd_DataFrame data)))
      = [("is_completed", column_of data k0)] /\
    getitem_list COLUMNS
      (setitem "status" (Series_map STATUS (column_of data k0))
         (rename RENAME (pd_DataFrame data))) = Return df.
Proof.
  unfold build_table, getitem.
  rewrite labelled_renamed.
  destruct (List.filter _ (keys_of data)) as [|k0 [|k1 ks]] eqn:Hf;
    cbn [map snd obind selection_map]; try discriminate.
  destruct (existsb is_nested (column_of data k0)); cbn [obind]; [discriminate|].
  intros H. exists k0.
  assert (Hin : In k0 (List.filter
            (fun k => String.eqb (rename_label RENAME k) "is_completed") (keys_of data)))
    by (rewrite Hf; now left).
  apply List.filter_In in Hin as [Hin Hk]. apply String.eqb_eq in Hk.
  repeat split; auto.
  - now apply renamed_to_is_completed.
  - cbn. now rewrite Hk.
Qed.


Lemma build_table_columns (data : list RawRecord) (df : DataFrame) :
  build_table data = Return df ->
  exists k0,
    In k0 (keys_of data) /\
    (k0 = "completed" \/ k0 = "is_completed") /\
    labelled "is_completed" (columns df) = [("is_completed", column_of data k0)] /\
    labelled "status" (columns df)
      = [("status", Series_map STATUS (column_of data k0))] /\
    index df = length data.
Proof.
  intros H. destruct (build_table_inv data df H) as (k0 & Hin & Hk & Hsel & Hproj).
  exists k0. apply getitem_list_inv in Hproj as [-> _].
  repeat split; auto.
  - cbn [columns]. rewrite labelled_flat_map. cbn.
    rewrite List.app_nil_r, labelled_setitem_other by discriminate. exact Hsel.
  - cbn [columns]. rewrite labelled_flat_map. cbn.
    rewrite labelled_setitem_same.
    pose proof (renamed_status_columns data) as Hle.
    destruct (labelled "status" (columns (rename RENAME (pd_DataFrame data))))
      as [|c [|c' cs]]; simpl in *; try reflexivity; lia.
  - cbn [index]. now rewrite index_setitem.
Qed.

(** The summary never meets the sub-frame branch of [selection_sum]. *)
Lemma summary_selects_series (data : list RawRecord) (df : DataFrame) :
  build_table data = Return df ->
  exists s, getitem "is_completed" df = Return (Series s) /\ length s = length data.
Proof.
  intros H. destruct (build_table_columns data df H) as (k0 & _ & _ & Hc & _).
  exists (column_of data k0). unfold getitem. rewrite Hc. simpl.
  split; [reflexivity|apply length_column_of].
Qed.

(** ** Running the steps *)

Lemma process_data_inv (data : list RawRecord) (w w1 : World) (df : DataFrame) :
  process_data data w = (Return df, w1) ->
  build_table data = Return df /\
  (exists s, summary_statistics df = Return s) /\
  files w1 = files w /\ readonly w1 = readonly w.
Proof.
  unfold process_data, bind, lift, print, ret.
  destruct (build_table data) as [df'|e]; [|discriminate].
  destruct (summary_statistics df') as [s|e] eqn:Hs; [|discriminate].
  intros H. inversion H; subst. cbn.
  split; [reflexivity|]. split; [now exists s|]. split; reflexivity.
Qed.

Lemma process_data_ok (data : list RawRecord) (w : World) (df : DataFrame) (s : Summary) :
  build_table data = Return df ->
  summary_statistics df = Return s ->
  exists w1, process_data data w = (Return df, w1) /\
             files w1 = files w /\ readonly w1 = readonly w.
Proof.
  intros Hb Hs. unfold process_data, bind, lift, print, ret.
  rewrite Hb, Hs. eexists. split; [reflexivity|]. cbn. auto.
Qed.

Lemma save_to_csv_inv (df : DataFrame) (path : string) (w w2 : World) :
  save_to_csv df path w = (Return tt, w2) ->
  files w2 = <[path := to_csv df]> (files w).
Proof.
  unfold save_to_csv, bind, write_file, print.
  destruct (existsb (String.eqb path) (readonly w)); [discriminate|].
  destruct (forallb encodable (to_csv df)); [|discriminate].
  intros H. inversion H; subst. reflexivity.
Qed.

Lemma not_in_readonly (path : string) (ps : list string) :
  ~ In path ps -> existsb (String.eqb path) ps = false.
Proof.
  intros H. apply not_true_is_false. intros Hex.
  apply List.existsb_exists in Hex as (p & Hp & He).
  apply String.eqb_eq in He. now subst.
Qed.

Lemma save_to_csv_ok (df : DataFrame) (path : string) (w : World) :
  ~ In path (readonly w) ->
  forallb encodable (to_csv df) = true ->
  exists w2, save_to_csv df path w = (Return tt, w2) /\
             files w2 = <[path := to_csv df]> (files w).
Proof.
  intros Hw He. unfold save_to_csv, bind, write_file, print.
  rewrite (not_in_readonly path (readonly w) Hw), He.
  eexists. split; reflexivity.
Qed.

(** A successful transform followed by a save on a writable path. *)
Lemma pipeline_run (data : list RawRecord) (df : DataFrame) (s : Summary) (w : World) :
  build_table data = Return df ->
  summary_statistics df = Return s ->
  forallb encodable (to_csv df) = true ->
  ~ In OUTPUT (readonly w) ->
  exists w1 w2,
    process_data data w = (Return df, w1) /\
    save_to_csv df OUTPUT w1 = (Return tt, w2) /\
    files w2 !! OUTPUT = Some (to_csv df).
Proof.
  intros Hb Hs He Hw.
  destruct (process_data_ok data w df s Hb Hs) as (w1 & Hp & _ & Hr).
  destruct (save_to_csv_ok df OUTPUT w1) as (w2 & Hsave & Hf);
    [now rewrite Hr|exact He|].
  exists w1, w2. split; [exact Hp|]. split; [exact Hsave|].
  rewrite Hf. apply lookup_insert_eq.
Qed.

Lemma fresh_world_writable (r : http_reply) (path : string) :
  ~ In path (readonly (fresh_world r)).
Proof. intros []. Qed.

(** ** C1: the empty input *)

(** C1 (the code departs from the claim). On the empty list of records
    [pd.DataFrame([])] has no column at all, so line 106 raises
    [KeyError: 'is_completed']: no table is returned, no summary is
    printed and no file is written. *)
Theorem process_data_empty_raises (w : World) :
  build_table [] = Raise (KeyError ["is_completed"]) /\
  fst (process_data [] w) = Raise (KeyError ["is_completed"]) /\
  stdout (snd (process_data [] w))
    = (stdout w ++ [Line (nl ++ "🔧  Processing data with pandas...")])%list /\
  files (snd (process_data [] w)) = files w.
Proof. repeat split. Qed.

(** ** C2: the derived status *)

Lemma numeric_dtype_cells (s : list cell) :
  is_numeric_dtype (infer_dtype s) = true ->
  forallb (fun c => is_int c || is_null c) s = true.
Proof.
  unfold infer_dtype.
  destruct (forallb is_bool s); [discriminate|].
  destruct (forallb is_int s) eqn:Hi.
  - intros _. rewrite List.forallb_forall in *. intros c Hc.
    now rewrite (Hi c Hc).
  - destruct (forallb (fun c => is_int c || is_null c) s); [reflexivity|].
    simpl. discriminate.
Qed.

Lemma numeric_dtype_has_int (s : list cell) :
  is_numeric_dtype (infer_dtype s) = true -> existsb is_int s = true.
Proof.
  unfold infer_dtype.
  destruct (forallb is_bool s) eqn:Hb; [discriminate|].
  destruct (forallb is_int s) eqn:Hi.
  - intros _. destruct s as [|c s]; [discriminate|].
    cbn in Hi |- *. apply andb_true_iff in Hi as [-> _]. reflexivity.
  - destruct (existsb is_int s); [reflexivity|].
    rewrite andb_false_r. discriminate.
Qed.

Lemma nth_map_cells (f : cell -> cell) (s : list cell) (i : nat) :
  (i < length s)%nat -> nth i (map f s) NaN = f (nth i s NaN).
Proof.
  intros Hi. rewrite (List.nth_indep (map f s) NaN (f NaN)).
  - apply List.map_nth.
  - now rewrite List.length_map.
Qed.

Lemma nth_Series_map (s : list cell) (i : nat) :
  (i < length s)%nat ->
  nth i (Series_map STATUS s) NaN
  = if is_numeric_dtype (infer_dtype s) then NaN else map_cell STATUS (nth i s NaN).
Proof.
  intros Hi. unfold Series_map.
  destruct (is_numeric_dtype (infer_dtype s)); now rewrite nth_map_cells.
Qed.

(** The status of one cell, whatever the dtype of its column. *)
Lemma status_of_cell (s : list cell) (i : nat) :
  (i < length s)%nat ->
  is_bit (nth i s NaN) = false ->
  nth i (Series_map STATUS s) NaN = status_for (nth i s NaN).
Proof.
  intros Hi Hbit. rewrite nth_Series_map by exact Hi.
  destruct (is_numeric_dtype (infer_dtype s)) eqn:Hnum.
  - apply numeric_dtype_cells in Hnum. rewrite List.forallb_forall in Hnum.
    specialize (Hnum (nth i s NaN) (List.nth_In s NaN Hi)).
    destruct (nth i s NaN) as [|[|b|z|t|t']]; cbn in *; congruence.
  - destruct (nth i s NaN) as [|[|[|]|z|t|t']]; try reflexivity.
    destruct z as [|[p|p|]|p]; try discriminate; reflexivity.
Qed.

(** C2, counterexample. In the scenario table the row has
    [is_completed] true and its status is not the text [Done]: the rule
    with the labels [Done] and [Pending] fails. With a second record
    that has no [completed], the second row has a missing
    [is_completed] and a missing status: the rule fails with the labels
    of the code as well. *)
Lemma status_labels_counterexample :
  (exists df, build_table [scenario_record] = Return df /\
              ~ status_follows "Done" "Pending" df) /\
  (exists df, build_table [scenario_record; partial_record] = Return df /\
              cells_at "is_completed" 1 df = [NaN] /\
              cells_at "status" 1 df = [NaN] /\
              ~ status_follows "Done ✅" "Pending ⏳" df).
Proof.
  split.
  - eexists. split; [reflexivity|].
    intros H.
    destruct (H 0%nat (Val (JBool true)) (Val (JStr "Done ✅"))) as [[_ H1] _];
      [cbn; lia|reflexivity|reflexivity|].
    specialize (H1 eq_refl). discriminate H1.
  - eexists. split; [reflexivity|]. split; [reflexivity|]. split; [reflexivity|].
    intros H.
    destruct (H 1%nat NaN NaN) as [_ H1]; [cbn; lia|reflexivity|reflexivity|].
    specialize (H1 ltac:(discriminate)). discriminate H1.
Qed.

(** C2, as amended. In every row of a transformed table whose
    [is_completed] is not the number 0 or 1, [status] is the text
    "Done ✅" exactly when [is_completed] is true, the text "Pending ⏳"
    exactly when [is_completed] is false, and missing when
    [is_completed] is neither. *)
Theorem status_derived_from_is_completed (data : list RawRecord) (df : DataFrame) :
  build_table data = Return df ->
  forall i, (i < index df)%nat ->
  exists c st,
    cells_at "is_completed" i df = [c] /\
    cells_at "status" i df = [st] /\
    (is_bit c = false ->
       st = status_for c /\
       (st = Val (JStr "Done ✅") <-> c = Val (JBool true)) /\
       (st = Val (JStr "Pending ⏳") <-> c = Val (JBool false)) /\
       (is_bool c = false -> st = NaN)).
Proof.
  intros H i Hi.
  destruct (build_table_columns data df H) as (k0 & _ & _ & Hc & Hs & Hidx).
  exists (nth i (column_of data k0) NaN),
         (nth i (Series_map STATUS (column_of data k0)) NaN).
  unfold cells_at. rewrite Hc, Hs. cbn [map snd].
  split; [reflexivity|]. split; [reflexivity|].
  intros Hbit.
  assert (Hlen : (i < length (column_of data k0))%nat)
    by (rewrite length_column_of; lia).
  rewrite (status_of_cell (column_of data k0) i Hlen Hbit).
  split; [reflexivity|].
  destruct (nth i (column_of data k0) NaN) as [|[|[|]|z|t|t']]; cbn;
    repeat split; intros; try reflexivity; discriminate.
Qed.

Lemma status_derived_witness :
  build_table [scenario_record] = Return scenario_table /\
  (0 < index scenario_table)%nat /\
  exists c st,
    cells_at "is_completed" 0 scenario_table = [c] /\
    cells_at "status" 0 scenario_table = [st] /\
    c = Val (JBool true) /\
    st = Val (JStr "Done ✅").
Proof.
  split; [reflexivity|]. split; [cbn; lia|].
  destruct (status_derived_from_is_completed [scenario_record] scenario_table
              eq_refl 0%nat) as (c & st & Hc & Hs & Hst); [cbn; lia|].
  exists c, st. split; [exact Hc|]. split; [exact Hs|].
  assert (E : c = Val (JBool true)) by (cbn in Hc; congruence).
  split; [exact E|]. subst c. now destruct (Hst eq_refl) as (-> & _).
Defined.

(** ** C3: the single-record scenario *)

(** C3, counterexample. Transforming and saving the scenario record
    writes one data row, and that row is not [1,1,A,True,Done]. *)
Lemma scenario_row_counterexample :
  exists df w1 w2 content,
    process_data [scenario_record] (fresh_world (Unreachable EmptyString)) = (Return df, w1) /\
    save_to_csv df OUTPUT w1 = (Return tt, w2) /\
    files w2 !! OUTPUT = Some content /\
    tl content <> ["1,1,A,True,Done"].
Proof.
  destruct (pipeline_run [scenario_record] _ _ (fresh_world (Unreachable EmptyString))
              eq_refl eq_refl eq_refl (fresh_world_writable _ _)) as (w1 & w2 & Hp & Hs & Hf).
  eexists _, w1, w2, _. split; [exact Hp|]. split; [exact Hs|].
  split; [exact Hf|]. discriminate.
Qed.

(** C3, as amended. Transforming and saving the scenario record writes
    the header and exactly one data row, [1,1,A,True,Done ✅]. *)
Theorem scenario_single_row (w : World) :
  ~ In OUTPUT (readonly w) ->
  exists df w1 w2,
    process_data [scenario_record] w = (Return df, w1) /\
    save_to_csv df OUTPUT w1 = (Return tt, w2) /\
    files w2 !! OUTPUT = Some [HEADER; "1,1,A,True,Done ✅"].
Proof.
  intros Hw.
  destruct (pipeline_run [scenario_record] _ _ w eq_refl eq_refl eq_refl Hw)
    as (w1 & w2 & Hp & Hs & Hf).
  eexists _, w1, w2. split; [exact Hp|]. split; [exact Hs|].
  rewrite Hf. reflexivity.
Qed.

Lemma scenario_single_row_witness :
  ~ In OUTPUT (readonly (fresh_world (Unreachable EmptyString))) /\
  exists df w1 w2,
    process_data [scenario_record] (fresh_world (Unreachable EmptyString)) = (Return df, w1) /\
    save_to_csv df OUTPUT w1 = (Return tt, w2) /\
    files w2 !! OUTPUT = Some [HEADER; "1,1,A,True,Done ✅"].
Proof.
  split; [cbn; tauto|].
  apply (scenario_single_row (fresh_world (Unreachable EmptyString))).
  cbn. tauto.
Defined.

(** ** C4: the summary counters *)

Lemma sum_counts_true (s : list cell) :
  existsb is_int s = false ->
  sum_Z (map cell_int s) = Z.of_nat (length (List.filter is_true_cell s)).
Proof.
  induction s as [|c s IH]; [reflexivity|].
  cbn [existsb]. intros H. apply orb_false_iff in H as [Hc Hs].
  cbn [map sum_Z fold_right List.filter]. fold (sum_Z (map cell_int s)).
  rewrite (IH Hs).
  destruct c as [|[|[|]|z|t|t']]; cbn [is_true_cell cell_int length];
    try discriminate; lia.
Qed.

Lemma summary_statistics_inv (df : DataFrame) (col : list cell) (s : Summary) :
  getitem "is_completed" df = Return (Series col) ->
  summary_statistics df = Return s ->
  existsb is_str col = false /\
  total s = len df /\
  ((infer_dtype col <> float64 /\
    completed s = PyInt (sum_Z (map cell_int col)) /\
    pending s = PyInt (len df - sum_Z (map cell_int col))) \/
   (infer_dtype col = float64 /\
    completed s = PyFloat (sum_Z (map cell_int col)) /\
    pending s = PyFloat (len df - sum_Z (map cell_int col)))).
Proof.
  intros Hg. unfold summary_statistics. rewrite Hg. cbn [obind selection_sum].
  unfold Series_sum.
  destruct (existsb is_nested col); [discriminate|].
  destruct (existsb is_str col).
  - destruct (forallb is_str col); cbn; discriminate.
  - destruct (infer_dtype col); cbn; intros H; inversion H; subst; cbn;
      (split; [reflexivity|]); (split; [reflexivity|]);
      solve [left; repeat split; discriminate | right; repeat split].
Qed.

(** The counters of a column without numbers: [completed] counts the
    true cells, as a Python [int]. *)
Lemma summary_without_numbers (df : DataFrame) (col : list cell) (s : Summary) :
  getitem "is_completed" df = Return (Series col) ->
  summary_statistics df = Return s ->
  existsb is_int col = false ->
  total s = len df /\
  completed s = PyInt (Z.of_nat (length (List.filter is_true_cell col))) /\
  pending s = PyInt (len df - Z.of_nat (length (List.filter is_true_cell col))).
Proof.
  intros Hg Hs Hi.
  destruct (summary_statistics_inv df col s Hg Hs) as (_ & Ht & Hc).
  split; [exact Ht|].
  destruct Hc as [(_ & Hc & Hp)|(Hf & _)].
  - now rewrite Hc, Hp, (sum_counts_true col Hi).
  - assert (Hn : existsb is_int col = true)
      by (apply numeric_dtype_has_int; now rewrite Hf).
    congruence.
Qed.

(** C4, counterexample. With [completed] equal to the number 2 in the
    only record, the transform succeeds and the counter [completed] is 2,
    although no row has [is_completed] true. *)
Lemma completed_counter_counterexample :
  exists df s col,
    build_table [numeric_record] = Return df /\
    summary_statistics df = Return s /\
    getitem "is_completed" df = Return (Series col) /\
    total s = 1%Z /\
    completed s = PyInt 2 /\
    List.filter is_true_cell col = [] /\
    value_of (completed s) <> Z.of_nat (length (List.filter is_true_cell col)).
Proof.
  do 3 eexists. repeat split; try reflexivity. discriminate.
Qed.

(** C4, as amended. Whenever the transform succeeds, [total] is the row
    count, which is the number of input records. When, in addition, no
    [is_completed] value is a number, [completed] is the number of rows
    whose [is_completed] is true, [pending] is [total] minus that
    number, both are Python integers between 0 and [total], and
    [completed + pending = total]. *)
Theorem summary_counters (data : list RawRecord) (df : DataFrame) (s : Summary) :
  build_table data = Return df ->
  summary_statistics df = Return s ->
  exists col,
    getitem "is_completed" df = Return (Series col) /\
    length col = length data /\
    total s = len df /\
    total s = Z.of_nat (length data) /\
    (existsb is_int col = false ->
     completed s = PyInt (Z.of_nat (length (List.filter is_true_cell col))) /\
     pending s
       = PyInt (total s - Z.of_nat (length (List.filter is_true_cell col))) /\
     (value_of (completed s) + value_of (pending s))%Z = total s /\
     (0 <= value_of (completed s) <= total s)%Z /\
     (0 <= value_of (pending s) <= total s)%Z).
Proof.
  intros Hb Hs.
  destruct (summary_selects_series data df Hb) as (col & Hg & Hlen).
  destruct (build_table_columns data df Hb) as (_ & _ & _ & _ & _ & Hidx).
  assert (Ht : total s = len df)
    by (now destruct (summary_statistics_inv df col s Hg Hs) as (_ & Ht & _)).
  assert (Hn : total s = Z.of_nat (length data))
    by (rewrite Ht; unfold len; now rewrite Hidx).
  exists col. split; [exact Hg|]. split; [exact Hlen|]. split; [exact Ht|].
  split; [exact Hn|].
  intros Hi.
  destruct (summary_without_numbers df col s Hg Hs Hi) as (_ & Hc & Hp).
  pose proof (List.filter_length_le is_true_cell col) as Hle.
  rewrite Hc, Hp, <- Ht. cbn [value_of].
  repeat split; lia.
Qed.

Lemma summary_counters_witness :
  build_table [scenario_record] = Return scenario_table /\
  summary_statistics scenario_table
    = Return {| total := 1; completed := PyInt 1; pending := PyInt 0 |} /\
  exists col,
    getitem "is_completed" scenario_table = Return (Series col) /\
    length col = 1%nat /\
    existsb is_int col = false /\
    PyInt 1 = PyInt (Z.of_nat (length (List.filter is_true_cell col))).
Proof.
  split; [reflexivity|]. split; [reflexivity|].
  destruct (summary_counters [scenario_record] scenario_table
              {| total := 1; completed := PyInt 1; pending := PyInt 0 |}
              eq_refl eq_refl)
    as (col & Hg & Hlen & _ & _ & Hcount).
  assert (Hi : existsb is_int col = false).
  { cbn in Hg. inversion Hg. reflexivity. }
  exists col. split; [exact Hg|]. split; [exact Hlen|]. split; [exact Hi|].
  exact (proj1 (Hcount Hi)).
Defined.

(** ** C5: the row count *)

Lemma setitem_columns (l : string) (v : list cell) (df : DataFrame) (c : string * list cell) :
  In c (columns (setitem l v df)) -> In c (columns df) \/ c = (l, v).
Proof.
  unfold setitem. destruct (existsb (has_label l) (columns df)); cbn [columns].
  - rewrite List.in_map_iff. intros (c' & Hc & Hin).
    destruct (has_label l c'); subst; auto.
  - rewrite List.in_app_iff. cbn. intros [H|[H|[]]]; auto.
Qed.

(** Where the columns of the transformed table come from: each is the
    column of one key of the records, under the label the key is renamed
    to, or the status derived from such a column. *)
Lemma build_table_sources (data : list RawRecord) (df : DataFrame) :
  build_table data = Return df ->
  forall c, In c (columns df) ->
    In (fst c) COLUMNS /\
    ((exists k, key_used k data /\ c = (rename_label RENAME k, column_of data k)) \/
     (exists k, key_used k data /\
                c = ("status", Series_map STATUS (column_of data k)))).
Proof.
  intros H c Hc. destruct (build_table_inv data df H) as (k0 & Hk0 & _ & _ & Hproj).
  apply getitem_list_inv in Hproj as [-> _]. cbn [columns] in Hc.
  apply List.in_flat_map in Hc as (l & Hl & Hc).
  split; [now rewrite (labelled_fst l _ c Hc)|].
  unfold labelled in Hc. apply List.filter_In in Hc as [Hc _].
  apply setitem_columns in Hc as [Hc| ->].
  - left. rewrite columns_renamed in Hc. apply List.in_map_iff in Hc as (k & <- & Hk).
    exists k. split; [now apply keys_of_In|reflexivity].
  - right. exists k0. split; [now apply keys_of_In|reflexivity].
Qed.

(** Every column of the transformed table has one cell per record. *)
Lemma build_table_wf (data : list RawRecord) (df : DataFrame) :
  build_table data = Return df ->
  Forall (fun c => length (snd c) = length data) (columns df).
Proof.
  intros H. apply List.Forall_forall. intros c Hc.
  destruct (build_table_sources data df H c Hc) as [_ [(k & _ & ->)|(k & _ & ->)]];
    cbn [snd]; rewrite ?length_Series_map; apply length_column_of.
Qed.

Lemma length_rows (df : DataFrame) : length (rows df) = index df.
Proof. unfold rows. now rewrite List.length_map, List.length_seq. Qed.

Lemma to_csv_shape (df : DataFrame) :
  exists lines, to_csv df = csv_line (labels df) :: lines /\ length lines = index df.
Proof.
  unfold to_csv. eexists. split; [reflexivity|].
  now rewrite List.length_map, List.length_seq.
Qed.

(** *** Texts without a given character *)

Lemma contains_char_app (c : ascii) (a b : string) :
  contains_char c (a ++ b) = contains_char c a || contains_char c b.
Proof.
  induction a as [|x a IH]; [reflexivity|].
  simpl. now rewrite IH, orb_assoc.
Qed.

Lemma digits_without (c : ascii) (d : Decimal.uint) :
  (forall x, In x ["0"; "1"; "2"; "3"; "4"; "5"; "6"; "7"; "8"; "9"]%char ->
             Ascii.eqb c x = false) ->
  contains_char c (NilEmpty.string_of_uint d) = false.
Proof.
  intros Hc. induction d; cbn [NilEmpty.string_of_uint contains_char];
    [reflexivity|..]; rewrite IHd, orb_false_r; apply Hc; cbn; tauto.
Qed.

Lemma str_int_without (c : ascii) (z : Z) :
  (forall x, In x ["-"; "0"; "1"; "2"; "3"; "4"; "5"; "6"; "7"; "8"; "9"]%char ->
             Ascii.eqb c x = false) ->
  contains_char c (str_int z) = false.
Proof.
  intros Hc.
  assert (Hd : forall d, contains_char c (NilEmpty.string_of_uint d) = false).
  { intros d. apply digits_without. intros x Hx. apply Hc. now right. }
  assert (Hu : forall d, contains_char c (NilZero.string_of_uint d) = false).
  { intros d. unfold NilZero.string_of_uint. destruct d; try apply Hd.
    cbn. rewrite orb_false_r. apply Hc. cbn. tauto. }
  unfold str_int, NilZero.string_of_int.
  destruct (Z.to_int z) as [d|d]; [apply Hu|].
  cbn [contains_char]. rewrite Hu, orb_false_r. apply Hc. now left.
Qed.

Lemma str_int_no_cr (z : Z) : no_cr (str_int z).
Proof.
  apply str_int_without. intros x Hx. cbn in Hx.
  repeat (destruct Hx as [<-|Hx]; [reflexivity|]). destruct Hx.
Qed.

(** The text of a cell has no carriage return unless its value has one. *)
Lemma format_cell_no_cr (d : dtype) (c : cell) :
  no_cr (cell_str c) -> no_cr (format_cell d c).
Proof.
  destruct c as [|[|[|]|z|t|t']]; try (intros _; reflexivity); try (intros H; exact H).
  intros _. cbn [format_cell]. destruct d; try apply str_int_no_cr.
  unfold no_cr, str_float. rewrite contains_char_app.
  now rewrite (str_int_no_cr z).
Qed.

Lemma map_cell_no_cr (c : cell) : no_cr (cell_str (map_cell STATUS c)).
Proof.
  destruct c as [|v]; [reflexivity|]. cbn [map_cell STATUS List.find fst snd].
  destruct (py_eq_bool v true); [reflexivity|].
  destruct (py_eq_bool v false); reflexivity.
Qed.

Lemma Series_map_no_cr (s : list cell) (c : cell) :
  In c (Series_map STATUS s) -> no_cr (cell_str c).
Proof.
  unfold Series_map. destruct (is_numeric_dtype (infer_dtype s));
    intros H; apply List.in_map_iff in H as (c0 & <- & _);
    [reflexivity|apply map_cell_no_cr].
Qed.

Lemma column_of_no_cr (data : list RawRecord) (k : string) (c : cell) :
  no_carriage_return data -> In c (column_of data k) -> no_cr (cell_str c).
Proof.
  intros Hd Hc. unfold column_of in Hc. apply List.in_map_iff in Hc as (r & <- & Hr).
  destruct (dict_get k r) as [v|] eqn:E; [now apply (Hd r k v)|reflexivity].
Qed.

(** *** Reading back what the writer wrote *)

Lemma quiet_app (a b : string) (q : bool) :
  quiet (a ++ b) q = match quiet a q with Some q' => quiet b q' | None => None end.
Proof.
  revert q. induction a as [|c a IH]; intros q; [reflexivity|].
  change (String c a ++ b) with (String c (a ++ b)).
  cbn [quiet]. destruct q; [apply IH|].
  destruct (Ascii.eqb c (ascii_of_nat 34)); [apply IH|].
  destruct (Ascii.eqb c (ascii_of_nat 10) || Ascii.eqb c (ascii_of_nat 13));
    [reflexivity|apply IH].
Qed.

(** A text without quote, line feed or carriage return is read in one
    stretch. *)
Lemma quiet_plain (s : string) :
  contains_char (ascii_of_nat 34) s = false ->
  contains_char (ascii_of_nat 10) s = false ->
  no_cr s ->
  quiet s false = Some false.
Proof.
  unfold no_cr. induction s as [|c s IH]; [reflexivity|].
  cbn [contains_char quiet]. intros Hq Hl Hc.
  apply orb_false_iff in Hq as [Hq1 Hq2].
  apply orb_false_iff in Hl as [Hl1 Hl2].
  apply orb_false_iff in Hc as [Hc1 Hc2].
  rewrite Ascii.eqb_sym, Hq1.
  rewrite (Ascii.eqb_sym c (ascii_of_nat 10)), Hl1.
  rewrite (Ascii.eqb_sym c (ascii_of_nat 13)), Hc1.
  cbn [orb]. now apply IH.
Qed.

(** Inside quotes, a text whose quotes are doubled leaves the reader
    inside quotes. *)
Lemma quiet_double_quotes (s : string) : quiet (double_quotes s) true = Some true.
Proof.
  induction s as [|c s IH]; [reflexivity|].
  cbn [double_quotes]. destruct (Ascii.eqb c (ascii_of_nat 34)) eqn:E.
  - cbn [quiet]. rewrite E. cbn [negb]. exact IH.
  - cbn [quiet]. rewrite E. exact IH.
Qed.

Lemma quiet_csv_field (f : string) : no_cr f -> quiet (csv_field f) false = Some false.
Proof.
  intros Hc. unfold csv_field. destruct (needs_quoting f) eqn:Hq.
  - unfold dquote. cbn [append quiet Ascii.eqb Bool.eqb ascii_of_nat].
    change (quiet (double_quotes f ++ String (ascii_of_nat 34) EmptyString) true
            = Some false).
    rewrite quiet_app, quiet_double_quotes. reflexivity.
  - unfold needs_quoting in Hq.
    apply orb_false_iff in Hq as [Hq Hl]. apply orb_false_iff in Hq as [_ Hq].
    now apply quiet_plain.
Qed.

Lemma quiet_join (fs : list string) :
  Forall no_cr fs -> quiet (join "," (map csv_field fs)) false = Some false.
Proof.
  induction 1 as [|f fs Hf Hfs IH]; [reflexivity|].
  destruct fs as [|g fs]; cbn [map join].
  - now apply quiet_csv_field.
  - rewrite quiet_app, (quiet_csv_field f Hf).
    change (quiet ("," ++ join "," (map csv_field (g :: fs))) false = Some false).
    rewrite quiet_app. exact IH.
Qed.

(** A record of the writer whose fields have no carriage return is read
    as one row. *)
Lemma quiet_csv_line (fs : list string) :
  Forall no_cr fs -> quiet (csv_line fs) false = Some false.
Proof.
  intros H. unfold csv_line.
  destruct fs as [|[|c f] [|g fs]]; try (now apply quiet_join). reflexivity.
Qed.

Lemma count_rows_line (l rest : string) (q started : bool) :
  quiet l q = Some false ->
  count_rows (l ++ nl ++ rest) q false started = S (count_rows rest false false false).
Proof.
  revert q started. induction l as [|c l IH]; intros q started.
  - cbn [quiet]. intros H. inversion H; subst. reflexivity.
  - change (String c l ++ nl ++ rest) with (String c (l ++ nl ++ rest)).
    cbn [quiet count_rows]. destruct q; [apply IH|].
    destruct (Ascii.eqb c (ascii_of_nat 34)); [apply IH|].
    destruct (Ascii.eqb c (ascii_of_nat 10)); [discriminate|].
    destruct (Ascii.eqb c (ascii_of_nat 13)); [discriminate|]. apply IH.
Qed.

(** A reader finds one row per record in a file whose records are each
    read in one stretch. *)
Lemma csv_rows_file (records : list string) :
  Forall (fun l => quiet l false = Some false) records ->
  csv_rows (file_text records) = length records.
Proof.
  unfold csv_rows. induction 1 as [|l records Hl _ IH]; [reflexivity|].
  cbn [file_text length]. now rewrite (count_rows_line l _ false false Hl), IH.
Qed.

Lemma nth_no_cr (l : list string) (i : nat) :
  Forall no_cr l -> no_cr (nth i l EmptyString).
Proof.
  intros H. revert i. induction H as [|x l Hx _ IH]; intros [|i]; cbn;
    try reflexivity; [exact Hx|apply IH].
Qed.

(** The records of a table whose labels and cells have no carriage
    return are each read as one row. *)
Lemma to_csv_quiet (df : DataFrame) :
  Forall no_cr (labels df) ->
  Forall (fun c => Forall (fun x => no_cr (cell_str x)) (snd c)) (columns df) ->
  Forall (fun l => quiet l false = Some false) (to_csv df).
Proof.
  intros Hl Hc. unfold to_csv. constructor; [now apply quiet_csv_line|].
  apply List.Forall_forall. intros l Hin.
  apply List.in_map_iff in Hin as (i & <- & _).
  apply quiet_csv_line. apply List.Forall_forall. intros f Hf.
  apply List.in_map_iff in Hf as (c & <- & Hcol).
  apply nth_no_cr. unfold format_column.
  rewrite List.Forall_forall in Hc. specialize (Hc c Hcol).
  apply List.Forall_forall. intros t Ht.
  apply List.in_map_iff in Ht as (x & <- & Hx).
  apply format_cell_no_cr. rewrite List.Forall_forall in Hc. now apply Hc.
Qed.

(** The records of a transformed table are each read as one row when no
    text of the input has a carriage return. *)
Lemma build_table_quiet (data : list RawRecord) (df : DataFrame) :
  build_table data = Return df ->
  no_carriage_return data ->
  Forall (fun l => quiet l false = Some false) (to_csv df).
Proof.
  intros Hb Hd. apply to_csv_quiet.
  - unfold labels. apply List.Forall_forall. intros l Hl.
    apply List.in_map_iff in Hl as (c & <- & Hc).
    destruct (build_table_sources data df Hb c Hc) as [Hin _].
    cbn in Hin. repeat (destruct Hin as [<-|Hin]; [reflexivity|]). destruct Hin.
  - apply List.Forall_forall. intros c Hc. apply List.Forall_forall. intros x Hx.
    destruct (build_table_sources data df Hb c Hc) as [_ [(k & _ & ->)|(k & _ & ->)]];
      cbn [snd] in Hx.
    + now apply (column_of_no_cr data k).
    + now apply (Series_map_no_cr (column_of data k)).
Qed.

(** C5, counterexample. A title with a carriage return between [a] and
    [b] is written as it is, and the carriage return ends a row: the
    file written for this single record reads as the header and two data
    rows. *)
Lemma carriage_return_counterexample :
  exists df w1 w2 content,
    process_data [cr_record] (fresh_world (Unreachable EmptyString)) = (Return df, w1) /\
    save_to_csv df OUTPUT w1 = (Return tt, w2) /\
    files w2 !! OUTPUT = Some content /\
    length content = 2%nat /\
    csv_rows (file_text content) = 3%nat /\
    (csv_rows (file_text content) - 1)%nat <> length [cr_record].
Proof.
  destruct (pipeline_run [cr_record] _ _ (fresh_world (Unreachable EmptyString))
              eq_refl eq_refl eq_refl (fresh_world_writable _ _)) as (w1 & w2 & Hp & Hs & Hf).
  eexists _, w1, w2, _. split; [exact Hp|]. split; [exact Hs|].
  split; [exact Hf|]. split; [reflexivity|]. split; [reflexivity|discriminate].
Qed.

(** C5, as amended. Whenever the transform and the save succeed, the
    frame built from the records, the renamed frame and the transformed
    table all have one row per input record, and every column of the
    table has one cell per record. For integers of at most 2^53 in
    absolute value, every column is, row by row and in the order of the
    input, the column of one key of the records or the status derived
    from such a column: no row is added, dropped or duplicated. The
    output file holds a header followed by one record per input record,
    and a reader finds the header and as many data rows in its text when
    no text of the input has a carriage return. *)
Theorem row_count_preserved (data : list RawRecord) (w w1 w2 : World) (df : DataFrame) :
  process_data data w = (Return df, w1) ->
  save_to_csv df OUTPUT w1 = (Return tt, w2) ->
  index (pd_DataFrame data) = length data /\
  index (rename RENAME (pd_DataFrame data)) = length data /\
  index df = length data /\
  length (rows df) = length data /\
  Forall (fun c => length (snd c) = length data) (columns df) /\
  (small_ints data ->
   forall c, In c (columns df) ->
     (exists k, key_used k data /\ snd c = map (field k) data) \/
     (exists k, key_used k data /\
                fst c = "status" /\ snd c = Series_map STATUS (map (field k) data))) /\
  exists header lines,
    files w2 !! OUTPUT = Some (header :: lines) /\
    length lines = length data /\
    (no_carriage_return data ->
     csv_rows (file_text (header :: lines)) = S (length data)).
Proof.
  intros Hp Hs.
  apply process_data_inv in Hp as (Hb & _ & _ & _).
  apply save_to_csv_inv in Hs.
  destruct (build_table_columns data df Hb) as (_ & _ & _ & _ & _ & Hidx).
  split; [reflexivity|]. split; [reflexivity|]. split; [exact Hidx|].
  split; [now rewrite length_rows|]. split; [now apply build_table_wf|].
  split.
  { intros _ c Hc.
    destruct (build_table_sources data df Hb c Hc) as [_ [(k & Hk & ->)|(k & Hk & ->)]];
      [left|right]; exists k; auto. }
  destruct (to_csv_shape df) as (lines & Hcsv & Hlen).
  exists (csv_line (labels df)), lines.
  rewrite Hs, lookup_insert_eq, <- Hcsv, Hlen, Hidx.
  repeat split.
  intros Hd. rewrite (csv_rows_file _ (build_table_quiet data df Hb Hd)), Hcsv.
  cbn [length]. now rewrite Hlen, Hidx.
Qed.

Lemma row_count_preserved_witness :
  process_data [scenario_record] (fresh_world (Unreachable EmptyString))
    = (Return scenario_table, scenario_transformed) /\
  save_to_csv scenario_table OUTPUT scenario_transformed = (Return tt, scenario_saved) /\
  index scenario_table = 1%nat /\
  exists header lines,
    files scenario_saved !! OUTPUT = Some (header :: lines) /\ length lines = 1%nat.
Proof.
  assert (H1 : process_data [scenario_record] (fresh_world (Unreachable EmptyString))
               = (Return scenario_table, scenario_transformed))
    by (vm_compute; reflexivity).
  assert (H2 : save_to_csv scenario_table OUTPUT scenario_transformed
               = (Return tt, scenario_saved))
    by (vm_compute; reflexivity).
  split; [exact H1|]. split; [exact H2|].
  destruct (row_count_preserved [scenario_record]
              (fresh_world (Unreachable EmptyString)) scenario_transformed
              scenario_saved scenario_table H1 H2)
    as (_ & _ & Hidx & _ & _ & _ & header & lines & Hf & Hlen & _).
  split; [exact Hidx|]. exists header, lines. split; [exact Hf|exact Hlen].
Defined.

(** ** C6: the header *)

(** When at most one of the keys [a] and [b] is in use and only they are
    renamed to [l], the renamed frame has at most one column [l]. *)
Lemma renamed_unique (l a b : string) (data : list RawRecord) :
  (forall k, rename_label RENAME k = l -> k = a \/ k = b) ->
  ~ (key_used a data /\ key_used b data) ->
  labelled l (columns (rename RENAME (pd_DataFrame data))) <> [] ->
  exists k, labelled l (columns (rename RENAME (pd_DataFrame data)))
            = [(l, column_of data k)].
Proof.
  intros Hpre Hnot Hne. rewrite labelled_renamed in *.
  set (p := fun k => String.eqb (rename_label RENAME k) l) in *.
  assert (Hone : exists x, List.filter p (keys_of data) = [] \/
                           List.filter p (keys_of data) = [x]).
  { destruct (List.in_dec String.string_dec a (keys_of data)) as [Ha|Ha].
    - exists a. apply filter_only; [apply keys_of_NoDup|].
      intros k Hk Hpk. apply String.eqb_eq in Hpk.
      destruct (Hpre k Hpk) as [E|E]; [exact E|]. subst k.
      exfalso. apply Hnot. split; now apply keys_of_In.
    - exists b. apply filter_only; [apply keys_of_NoDup|].
      intros k Hk Hpk. apply String.eqb_eq in Hpk.
      destruct (Hpre k Hpk) as [E|E]; [|exact E]. subst k. contradiction. }
  destruct Hone as (x & [H|H]).
  - rewrite H in Hne. now destruct Hne.
  - assert (Hx : In x (List.filter p (keys_of data))) by (rewrite H; now left).
    apply List.filter_In in Hx as [_ Hx]. apply String.eqb_eq in Hx.
    exists x. rewrite H. cbn. now rewrite Hx.
Qed.

Lemma build_table_labels (data : list RawRecord) (df : DataFrame) :
  build_table data = Return df ->
  ~ (key_used "id" data /\ key_used "todo_id" data) ->
  ~ (key_used "userId" data /\ key_used "user_id" data) ->
  ~ (key_used "title" data /\ key_used "task" data) ->
  labels df = COLUMNS.
Proof.
  intros H H1 H2 H3.
  destruct (build_table_columns data df H) as (k0 & _ & _ & Hc & Hs & _).
  destruct (build_table_inv data df H) as (k1 & _ & _ & _ & Hproj).
  apply getitem_list_inv in Hproj as [Hdf Hne].
  assert (Hsame : forall l, l <> "status" ->
            labelled l (columns df)
            = if existsb (String.eqb l) COLUMNS
              then labelled l (columns (rename RENAME (pd_DataFrame data))) else []).
  { intros l Hl. rewrite Hdf. cbn [columns]. rewrite labelled_flat_map. cbn.
    rewrite !(String.eqb_sym l).
    destruct (String.eqb_spec "todo_id" l) as [<-|_];
      [cbn; rewrite List.app_nil_r; now apply labelled_setitem_other|].
    destruct (String.eqb_spec "user_id" l) as [<-|_];
      [cbn; rewrite List.app_nil_r; now apply labelled_setitem_other|].
    destruct (String.eqb_spec "task" l) as [<-|_];
      [cbn; rewrite List.app_nil_r; now apply labelled_setitem_other|].
    destruct (String.eqb_spec "is_completed" l) as [<-|_];
      [cbn; rewrite List.app_nil_r; now apply labelled_setitem_other|].
    destruct (String.eqb_spec "status" l) as [<-|_]; [congruence|reflexivity]. }
  assert (Hsrc : forall l a b,
            In l ["todo_id"; "user_id"; "task"] ->
            (forall k, rename_label RENAME k = l -> k = a \/ k = b) ->
            ~ (key_used a data /\ key_used b data) ->
            map fst (labelled l (columns (setitem "status"
                       (Series_map STATUS (column_of data k1))
                       (rename RENAME (pd_DataFrame data))))) = [l]).
  { intros l a b Hl Hpre Hnot.
    assert (Hls : l <> "status")
      by (cbn in Hl; intros ->; repeat (destruct Hl as [Hl|Hl]; [discriminate|]); destruct Hl).
    assert (HlC : In l COLUMNS)
      by (cbn in Hl |- *; tauto).
    specialize (Hne l HlC).
    rewrite labelled_setitem_other in * by exact Hls.
    destruct (renamed_unique l a b data Hpre Hnot Hne) as (k & ->). reflexivity. }
  unfold labels. rewrite Hdf. cbn [columns COLUMNS flat_map].
  rewrite !List.map_app.
  rewrite (Hsrc "todo_id" "id" "todo_id"), (Hsrc "user_id" "userId" "user_id"),
          (Hsrc "task" "title" "task");
    try (cbn; tauto); auto using renamed_to_todo_id, renamed_to_user_id, renamed_to_task.
  assert (Hic : labelled "is_completed" (columns df)
                = labelled "is_completed" (columns (rename RENAME (pd_DataFrame data))))
    by exact (Hsame "is_completed" ltac:(discriminate)).
  rewrite labelled_setitem_other by discriminate. rewrite <- Hic, Hc.
  assert (Hst : labelled "status" (columns df)
                = labelled "status" (columns (setitem "status"
                       (Series_map STATUS (column_of data k1))
                       (rename RENAME (pd_DataFrame data))))).
  { rewrite Hdf. cbn [columns]. rewrite labelled_flat_map. cbn.
    now rewrite List.app_nil_r. }
  rewrite <- Hst, Hs. reflexivity.
Qed.

(** C6, counterexample. A record that has both [id] and [todo_id]
    leaves two columns labelled [todo_id] after the renaming; the
    projection keeps both and the header names six columns. *)
Lemma header_counterexample :
  exists df w1 w2 content,
    process_data [colliding_record] (fresh_world (Unreachable EmptyString)) = (Return df, w1) /\
    save_to_csv df OUTPUT w1 = (Return tt, w2) /\
    files w2 !! OUTPUT = Some content /\
    hd EmptyString content = "todo_id,todo_id,user_id,task,is_completed,status" /\
    hd EmptyString content <> HEADER.
Proof.
  destruct (pipeline_run [colliding_record] _ _ (fresh_world (Unreachable EmptyString))
              eq_refl eq_refl eq_refl (fresh_world_writable _ _)) as (w1 & w2 & Hp & Hs & Hf).
  eexists _, w1, w2, _. split; [exact Hp|]. split; [exact Hs|].
  split; [exact Hf|]. split; [reflexivity|discriminate].
Qed.

(** C6, as amended. Whenever the transform and the save succeed and the
    records do not use a source key together with the name it is renamed
    to ([id] with [todo_id], [userId] with [user_id], [title] with
    [task]), the table has exactly the columns [todo_id], [user_id],
    [task], [is_completed], [status] in this order and the first line of
    the output file is [todo_id,user_id,task,is_completed,status]. *)
Theorem header_is_fixed (data : list RawRecord) (w w1 w2 : World) (df : DataFrame) :
  process_data data w = (Return df, w1) ->
  save_to_csv df OUTPUT w1 = (Return tt, w2) ->
  ~ (key_used "id" data /\ key_used "todo_id" data) ->
  ~ (key_used "userId" data /\ key_used "user_id" data) ->
  ~ (key_used "title" data /\ key_used "task" data) ->
  labels df = COLUMNS /\
  exists lines, files w2 !! OUTPUT = Some (HEADER :: lines).
Proof.
  intros Hp Hs H1 H2 H3.
  apply process_data_inv in Hp as (Hb & _ & _ & _).
  apply save_to_csv_inv in Hs.
  pose proof (build_table_labels data df Hb H1 H2 H3) as Hl.
  split; [exact Hl|].
  destruct (to_csv_shape df) as (lines & Hcsv & _).
  exists lines. rewrite Hs, lookup_insert_eq, Hcsv, Hl. reflexivity.
Qed.

Lemma scenario_keys (k : string) :
  key_used k [scenario_record] -> In k ["userId"; "id"; "title"; "completed"].
Proof.
  intros (r & [<-|[]] & Hk). exact Hk.
Qed.

(** Refutes that the scenario record uses both keys of a pair. *)
Ltac not_both_keys :=
  let H := fresh "H" in
  intros [_ H]; apply scenario_keys in H; cbn in H;
  repeat (destruct H as [H|H]; [discriminate|]); destruct H.

Lemma header_is_fixed_witness :
  process_data [scenario_record] (fresh_world (Unreachable EmptyString))
    = (Return scenario_table, scenario_transformed) /\
  save_to_csv scenario_table OUTPUT scenario_transformed = (Return tt, scenario_saved) /\
  labels scenario_table = COLUMNS /\
  exists lines, files scenario_saved !! OUTPUT = Some (HEADER :: lines).
Proof.
  assert (H1 : process_data [scenario_record] (fresh_world (Unreachable EmptyString))
               = (Return scenario_table, scenario_transformed))
    by (vm_compute; reflexivity).
  assert (H2 : save_to_csv scenario_table OUTPUT scenario_transformed
               = (Return tt, scenario_saved))
    by (vm_compute; reflexivity).
  split; [exact H1|]. split; [exact H2|].
  apply (header_is_fixed [scenario_record]
           (fresh_world (Unreachable EmptyString)) scenario_transformed
           scenario_saved scenario_table H1 H2).
  - not_both_keys.
  - not_both_keys.
  - not_both_keys.
Defined.

(** ** C10: records without a usable [completed] *)


Lemma renamed_source (l k : string) (data : list RawRecord) :
  key_used k data ->
  rename_label RENAME k = l ->
  labelled l (columns (rename RENAME (pd_DataFrame data))) <> [].
Proof.
  intros Hk Hl. rewrite labelled_renamed. intros Hnil.
  apply List.map_eq_nil in Hnil.
  assert (Hin : In k (List.filter
            (fun k => String.eqb (rename_label RENAME k) l) (keys_of data))).
  { apply List.filter_In. split; [now apply keys_of_In|]. now apply String.eqb_eq. }
  rewrite Hnil in Hin. destruct Hin.
Qed.

Lemma countable_column (data : list RawRecord) (k : string) :
  countable_under k data ->
  existsb is_str (column_of data k) = false /\
  existsb is_nested (column_of data k) = false.
Proof.
  intros H.
  assert (Hc : forall c, In c (column_of data k) ->
                         is_str c = false /\ is_nested c = false).
  { intros c Hc. unfold column_of in Hc.
    apply List.in_map_iff in Hc as (r & <- & Hr).
    destruct (dict_get k r) as [v|] eqn:E; [|split; reflexivity].
    specialize (H r v Hr E). destruct v; try discriminate; split; reflexivity. }
  split; apply not_true_is_false; intros Hex;
    apply List.existsb_exists in Hex as (c & Hin & Hs);
    destruct (Hc c Hin); congruence.
Qed.

Lemma nth_column_of (data : list RawRecord) (k : string) (i : nat) (r : RawRecord) :
  nth_error data i = Some r ->
  nth i (column_of data k) NaN
  = match dict_get k r with Some v => Val v | None => NaN end.
Proof.
  revert i. induction data as [|r0 data IH]; intros [|i]; cbn; try discriminate.
  - intros H. now inversion H.
  - apply IH.
Qed.



(** ** C9: the preview *)









(** ** Traces of the steps *)

Lemma app_cons_assoc {A : Type} (l : list A) (x : A) (t : list A) :
  ((l ++ [x]) ++ t = l ++ x :: t)%list.
Proof. now rewrite <- List.app_assoc. Qed.

Lemma printed_app (a b : list output) (w : World) :
  printed b (printed a w) = printed (a ++ b) w.
Proof. unfold printed. cbn [stdout files readonly reply requests_sent].
       now rewrite List.app_assoc. Qed.

Lemma print_printed (o : output) (w : World) : print o w = (Return tt, printed [o] w).
Proof. reflexivity. Qed.

Lemma process_data_run (data : list RawRecord) (df : DataFrame) (s : Summary) (w : World) :
  build_table data = Return df ->
  summary_statistics df = Return s ->
  process_data data w = (Return df, printed (processing_line :: summary_lines s) w).
Proof.
  intros Hb Hs. unfold process_data, bind, lift, ret.
  rewrite print_printed, Hb, Hs, !print_printed, !printed_app. reflexivity.
Qed.



Lemma save_to_csv_run (df : DataFrame) (path : string) (w : World) :
  ~ In path (readonly w) ->
  forallb encodable (to_csv df) = true ->
  save_to_csv df path w
  = (Return tt,
     printed (save_lines df path)
       {| stdout := stdout w; files := <[path := to_csv df]> (files w);
          readonly := readonly w; reply := reply w;
          requests_sent := requests_sent w |}).
Proof.
  intros Hw He. unfold save_to_csv, bind, write_file.
  rewrite (not_in_readonly path (readonly w) Hw), He, !print_printed, !printed_app.
  reflexivity.
Qed.

Lemma save_to_csv_fail (df : DataFrame) (path : string) (w : World) :
  In path (readonly w) -> save_to_csv df path w = (Raise OSError, w).
Proof.
  intros Hw. unfold save_to_csv, bind, write_file.
  assert (E : existsb (String.eqb path) (readonly w) = true).
  { apply List.existsb_exists. exists path. split; [exact Hw|apply String.eqb_refl]. }
  now rewrite E.
Qed.





(** ** C7: the failures of the fetch *)

Lemma raise_for_status_spec (r : response) (w : World) :
  if is_error_status (status_code r)
  then exists msg, raise_for_status r w = (Raise (RequestException HTTPError msg), w)
  else raise_for_status r w = (Return tt, w).
Proof.
  unfold raise_for_status, is_error_status, raise, ret.
  destruct ((400 <=? status_code r)%Z && (status_code r <? 500)%Z) eqn:H4.
  - replace ((400 <=? status_code r)%Z && (status_code r <? 600)%Z) with true by lia.
    eauto.
  - destruct ((500 <=? status_code r)%Z && (status_code r <? 600)%Z) eqn:H5.
    + replace ((400 <=? status_code r)%Z && (status_code r <? 600)%Z) with true by lia.
      eauto.
    + replace ((400 <=? status_code r)%Z && (status_code r <? 600)%Z) with false by lia.
      reflexivity.
Qed.

Lemma fetch_body_spec (rsp : response) (w : World) :
  if is_error_status (status_code rsp)
  then exists msg,
         fetch_body rsp w
         = (Raise (SystemExit 1),
            printed [Line ("❌  HTTP ERROR: " ++ msg);
                     Line ("    Status Code: " ++ str_int (status_code rsp))] w)
  else match body rsp with
       | NotJSON cause =>
           fetch_body rsp w
           = (Raise (SystemExit 1), printed [Line ("❌  UNEXPECTED ERROR: " ++ cause)] w)
       | Parsed None => fetch_body rsp w = (Raise TypeError, w)
       | Parsed (Some data) =>
           fetch_body rsp w = (Return data, printed [fetch_success_line data] w)
       end.
Proof.
  pose proof (raise_for_status_spec rsp w) as Hs.
  unfold fetch_body, try_except, bind.
  destruct (is_error_status (status_code rsp)).
  - destruct Hs as (msg & ->). exists msg.
    cbn [on_request_error isinstance_ConnectionError isinstance_Timeout
         isinstance_HTTPError].
    unfold bind, sys_exit, raise.
    rewrite !print_printed, printed_app. reflexivity.
  - rewrite Hs. unfold response_json.
    destruct (body rsp) as [cause|[data|]]; cbn [raise ret lift sized].
    + cbn [on_request_error isinstance_ConnectionError isinstance_Timeout
           isinstance_HTTPError].
      unfold bind, sys_exit, raise.
      rewrite print_printed. reflexivity.
    + rewrite print_printed. reflexivity.
    + reflexivity.
Qed.

Lemma fetch_todos_unfold (target : string) (params : dict Z) (w : World) :
  fetch_todos target params w
  = bind (print (Line (nl ++ "📡  Fetching data from: " ++ target)))
      (fun _ =>
       bind (print (Line ("    Parameters        : " ++ repr_params params ++ nl)))
         (fun _ =>
          try_except (bind (requests_get target params 10) fetch_body)
                     (on_request_error None))) w.
Proof. reflexivity. Qed.

(** What [fetch_todos] does, reply by reply. *)
Lemma fetch_todos_spec (target : string) (params : dict Z) (w : World) :
  exists shown o,
    fetch_todos target params w
      = (o, called (printed (fetch_intro target params ++ shown) w)) /\
    match fetch_outcome (reply w) with
    | Fails k => o = Raise (SystemExit 1) /\ failure_report k shown
    | Crashes => o = Raise TypeError /\ shown = []
    | Fetches data => o = Return data /\ shown = [fetch_success_line data]
    end.
Proof.
  rewrite fetch_todos_unfold. unfold bind at 1 2.
  rewrite !print_printed, printed_app.
  set (w0 := printed _ w).
  change (reply w) with (reply w0).
  assert (Hw0 : forall shown,
            printed shown (called w0)
            = called (printed (fetch_intro target params ++ shown) w)).
  { intros shown. unfold w0, called, printed, fetch_intro.
    cbn [stdout files readonly reply requests_sent].
    now rewrite <- !List.app_assoc. }
  assert (Hw1 : called w0 = called (printed (fetch_intro target params ++ []) w)).
  { rewrite <- Hw0. unfold printed. cbn [stdout files readonly reply requests_sent called].
    now rewrite List.app_nil_r. }
  unfold try_except, bind, requests_get. fold (called w0).
  destruct (reply w0) as [msg|msg|msg|msg|code rsn b|code rsn cause] eqn:Hr;
    cbn [fetch_outcome on_request_error isinstance_ConnectionError
         isinstance_Timeout isinstance_HTTPError].
  1-4: unfold bind, sys_exit, raise; rewrite print_printed, Hw0;
       do 2 eexists; (split; [reflexivity|split; reflexivity]).
  - match goal with |- context [fetch_body ?r ?w1] =>
      pose proof (fetch_body_spec r w1) as Hb end.
    cbn [status_code body] in Hb.
    destruct (is_error_status code).
    + destruct Hb as (msg & ->). rewrite Hw0. do 2 eexists.
      split; [reflexivity|]. split; [reflexivity|]. cbn [failure_report]. eauto.
    + destruct b as [data|]; rewrite Hb.
      * rewrite Hw0. do 2 eexists. split; [reflexivity|]. split; reflexivity.
      * cbn [on_request_error]. rewrite Hw1. do 2 eexists.
        split; [reflexivity|]. split; reflexivity.
  - match goal with |- context [fetch_body ?r ?w1] =>
      pose proof (fetch_body_spec r w1) as Hb end.
    cbn [status_code body] in Hb.
    destruct (is_error_status code).
    + destruct Hb as (msg & ->). rewrite Hw0. do 2 eexists.
      split; [reflexivity|]. split; [reflexivity|]. cbn [failure_report]. eauto.
    + rewrite Hb, Hw0. do 2 eexists. split; [reflexivity|]. split; reflexivity.
Qed.

Lemma fetch_outcome_fetches (r : http_reply) (data : list RawRecord) :
  fetch_outcome r = Fetches data <->
  exists code rsn, r = Response code rsn (Some data) /\ is_error_status code = false.
Proof.
  split.
  - destruct r as [msg|msg|msg|msg|code rsn [d|]|code rsn cause];
      cbn [fetch_outcome]; try discriminate;
      destruct (is_error_status code) eqn:He; try discriminate.
    intros H. inversion H; subst. eauto.
  - intros (code & rsn & -> & He). cbn [fetch_outcome]. now rewrite He.
Qed.

Lemma fetch_todos_run (target : string) (params : dict Z) (w : World)
      (code : Z) (rsn : string) (data : list RawRecord) :
  reply w = Response code rsn (Some data) ->
  is_error_status code = false ->
  fetch_todos target params w
  = (Return data,
     {| stdout := (stdout w ++ fetch_intro target params ++ [fetch_success_line data])%list;
        files := files w; readonly := readonly w; reply := reply w;
        requests_sent := S (requests_sent w) |}).
Proof.
  intros Hr He.
  destruct (fetch_todos_spec target params w) as (shown & o & -> & Hk).
  assert (Ho : fetch_outcome (reply w) = Fetches data)
    by (apply fetch_outcome_fetches; eauto).
  rewrite Ho in Hk. destruct Hk as [-> ->]. reflexivity.
Qed.

Lemma main_unfold (w : World) :
  main w = bind (fetch_todos API_URL PARAMS) after_fetch (banner_world w).
Proof.
  assert (Hw : banner_world w
               = snd ((print (Line (repeat_str "=" 70)) ;;
                       print (Line "  Python API Toolkit – Fetch & Save Todo Data") ;;
                       print (Line "  Moringa School Capstone | February 2026") ;;
                       print (Line (repeat_str "=" 70))) w)).
  { unfold banner_world, banner, bind, print.
    cbn [snd stdout files readonly reply requests_sent].
    now rewrite !app_cons_assoc. }
  rewrite Hw. reflexivity.
Qed.




(** ** C8: a failed fetch stops the run *)

Lemma encodable_comma (a b : string) :
  encodable a = true -> encodable b = true -> encodable (a ++ "," ++ b) = true.
Proof.
  intros Ha Hb. induction a as [|x a IH].
  - cbn [append encodable]. destruct b; [reflexivity|].
    cbn. exact Hb.
  - change (String x a ++ "," ++ b) with (String x (a ++ "," ++ b)).
    cbn [encodable] in Ha |- *.
    apply andb_true_iff in Ha as [Hx Ha]. rewrite (IH Ha), andb_true_r.
    destruct a as [|y a']; [|exact Hx].
    cbn [append]. apply negb_true_iff, andb_false_iff. right. reflexivity.
Qed.







(** * Further properties of the steps *)

(** ** The transform on records with clean keys *)

(** The columns labelled [l] in the renamed frame, when [k] is the only
    key in use that is renamed to [l]. *)
Lemma renamed_exactly (l k : string) (data : list RawRecord) :
  key_used k data ->
  rename_label RENAME k = l ->
  (forall k', key_used k' data -> rename_label RENAME k' = l -> k' = k) ->
  labelled l (columns (rename RENAME (pd_DataFrame data))) = [(l, column_of data k)].
Proof.
  intros Hk Hl Honly. rewrite labelled_renamed.
  rewrite (filter_exactly _ k); [cbn; now rewrite Hl|apply keys_of_NoDup| | |].
  - now apply keys_of_In.
  - now apply String.eqb_eq.
  - intros k' Hk' Hp. apply String.eqb_eq in Hp. apply Honly; [|exact Hp].
    now apply keys_of_In.
Qed.

(** What [build_table] returns once the renamed frame has a single
    [is_completed] column and a source for every other output column. *)
Lemma build_table_ok (data : list RawRecord) (k0 : string) :
  labelled "is_completed" (columns (rename RENAME (pd_DataFrame data)))
    = [("is_completed", column_of data k0)] ->
  existsb is_nested (column_of data k0) = false ->
  (forall l, In l ["todo_id"; "user_id"; "task"] ->
     labelled l (columns (rename RENAME (pd_DataFrame data))) <> []) ->
  build_table data
  = Return {| columns := flat_map (fun l => labelled l
                 (columns (setitem "status" (Series_map STATUS (column_of data k0))
                             (rename RENAME (pd_DataFrame data))))) COLUMNS;
              index := length data |}.
Proof.
  intros Hsel Hnest Hsrc. unfold build_table, getitem. rewrite Hsel.
  cbn [map snd obind selection_map]. rewrite Hnest. cbn [obind].
  rewrite getitem_list_ok; [now rewrite index_setitem|].
  intros l Hl. cbn in Hl. destruct Hl as [<-|[<-|[<-|[<-|[<-|[]]]]]].
  - rewrite labelled_setitem_other by discriminate. apply Hsrc. cbn. tauto.
  - rewrite labelled_setitem_other by discriminate. apply Hsrc. cbn. tauto.
  - rewrite labelled_setitem_other by discriminate. apply Hsrc. cbn. tauto.
  - rewrite labelled_setitem_other, Hsel by discriminate. discriminate.
  - rewrite labelled_setitem_same.
    destruct (labelled "status" _); discriminate.
Qed.

(** With clean keys the transform stops at line 106 when a [completed]
    value is an array or an object, and builds the clean table
    otherwise. *)
Lemma build_table_clean (data : list RawRecord) :
  clean_keys data ->
  build_table data
  = if existsb is_nested (column_of data "completed") then Raise TypeError
    else Return (clean_table data).
Proof.
  intros (Hid & Hu & Ht & Hc & Hnt & Hnu & Hnk & Hnc).
  assert (H1 := renamed_exactly "todo_id" "id" data Hid eq_refl).
  assert (H2 := renamed_exactly "user_id" "userId" data Hu eq_refl).
  assert (H3 := renamed_exactly "task" "title" data Ht eq_refl).
  assert (H4 := renamed_exactly "is_completed" "completed" data Hc eq_refl).
  assert (Hsel : labelled "is_completed" (columns (rename RENAME (pd_DataFrame data)))
                 = [("is_completed", column_of data "completed")]).
  { apply H4. intros k Hk Hr. destruct (renamed_to_is_completed k Hr) as [E|E];
      [exact E|subst; contradiction]. }
  destruct (existsb is_nested (column_of data "completed")) eqn:Hnest.
  { unfold build_table, getitem. rewrite Hsel.
    cbn [map snd obind selection_map]. now rewrite Hnest. }
  rewrite (build_table_ok data "completed" Hsel Hnest).
  - unfold clean_table. f_equal. f_equal. cbn [COLUMNS flat_map].
    rewrite !labelled_setitem_other by discriminate.
    rewrite labelled_setitem_same.
    rewrite H1, H2, H3, Hsel.
    + pose proof (renamed_status_columns data) as Hle.
      destruct (labelled "status" (columns (rename RENAME (pd_DataFrame data))))
        as [|c [|c' cs]]; cbn in Hle |- *; try reflexivity; lia.
    + intros k Hk Hr. destruct (renamed_to_task k Hr) as [E|E];
        [exact E|subst; contradiction].
    + intros k Hk Hr. destruct (renamed_to_user_id k Hr) as [E|E];
        [exact E|subst; contradiction].
    + intros k Hk Hr. destruct (renamed_to_todo_id k Hr) as [E|E];
        [exact E|subst; contradiction].
  - intros l Hl. cbn in Hl. destruct Hl as [<-|[<-|[<-|[]]]].
    + now apply (renamed_source "todo_id" "id").
    + now apply (renamed_source "user_id" "userId").
    + now apply (renamed_source "task" "title").
Qed.

(** The summary of a column without text, array or object. *)
Lemma summary_statistics_ok (df : DataFrame) (col : list cell) :
  getitem "is_completed" df = Return (Series col) ->
  existsb is_str col = false ->
  existsb is_nested col = false ->
  exists s, summary_statistics df = Return s.
Proof.
  intros Hg Hs Hn. unfold summary_statistics. rewrite Hg.
  cbn [obind selection_sum]. unfold Series_sum. rewrite Hn, Hs.
  destruct (infer_dtype col); cbn; eauto.
Qed.

(** With clean keys and countable [completed] values, [process_data]
    returns the clean table. *)
Lemma process_data_clean (data : list RawRecord) (w : World) :
  clean_keys data -> countable_under "completed" data ->
  exists s,
    build_table data = Return (clean_table data) /\
    summary_statistics (clean_table data) = Return s /\
    process_data data w
    = (Return (clean_table data), printed (processing_line :: summary_lines s) w).
Proof.
  intros Hclean Hcount.
  destruct (countable_column data "completed" Hcount) as [Hstr Hnest].
  assert (Hb : build_table data = Return (clean_table data))
    by (rewrite (build_table_clean data Hclean); now rewrite Hnest).
  destruct (summary_statistics_ok (clean_table data) (column_of data "completed")
              eq_refl Hstr Hnest) as (s & Hs).
  exists s. split; [exact Hb|]. split; [exact Hs|]. now apply process_data_run.
Qed.

Lemma column_of_fields (data : list RawRecord) (k : string) :
  column_of data k = map (field k) data.
Proof. reflexivity. Qed.

Lemma nth_field (data : list RawRecord) (k : string) (i : nat) (r : RawRecord) :
  nth_error data i = Some r -> nth i (column_of data k) NaN = field k r.
Proof. intros H. unfold field. now apply nth_column_of. Qed.

(** X1. The transform keeps the records' values and their order. When
    the records use their keys cleanly, no [completed] value is a text,
    an array or an object, and the integers are at most 2^53 in absolute
    value, [process_data] returns a table with exactly the columns
    [todo_id], [user_id], [task], [is_completed], [status] and one row
    per record, and row [i] holds the [id], [userId], [title] and
    [completed] of record [i] (a missing marker for a key the record
    lacks) followed by the status derived from that [completed]; every
    other key of the records is dropped. *)
Theorem transformed_rows (data : list RawRecord) (w : World) :
  clean_keys data ->
  countable_under "completed" data ->
  small_ints data ->
  exists df w1,
    process_data data w = (Return df, w1) /\
    labels df = COLUMNS /\
    index df = length data /\
    length (rows df) = length data /\
    forall i r,
      nth_error data i = Some r ->
      exists st,
        nth_error (rows df) i
        = Some [field "id" r; field "userId" r; field "title" r;
                field "completed" r; st] /\
        (is_bit (field "completed" r) = false ->
         st = status_for (field "completed" r)).
Proof.
  intros Hclean Hcount _.
  destruct (process_data_clean data w Hclean Hcount) as (s & _ & _ & Hp).
  exists (clean_table data). eexists. split; [exact Hp|].
  split; [reflexivity|]. split; [reflexivity|].
  split; [now rewrite length_rows|].
  intros i r Hr.
  assert (Hi : (i < length data)%nat) by (apply List.nth_error_Some; congruence).
  exists (nth i (Series_map STATUS (column_of data "completed")) NaN).
  split.
  - unfold rows. cbn [clean_table index].
    rewrite List.nth_error_map, List.nth_error_seq.
    destruct (Nat.ltb_spec i (length data)) as [_|Hge]; [|lia].
    cbn [option_map Nat.add]. f_equal.
    unfold row_at, clean_table. cbn [columns map snd].
    now rewrite !(nth_field data _ i r Hr).
  - intros Hbit.
    assert (Hlen : (i < length (column_of data "completed"))%nat)
      by now rewrite length_column_of.
    rewrite status_of_cell; rewrite ?(nth_field data _ i r Hr); auto.
Qed.

Lemma scenario_clean_keys : clean_keys [scenario_record].
Proof.
  unfold clean_keys.
  repeat match goal with
         | |- _ /\ _ => split
         | |- key_used _ _ => exists scenario_record; cbn; tauto
         | |- ~ key_used _ _ =>
             let H := fresh "H" in
             intros H; apply scenario_keys in H; cbn in H;
             repeat (destruct H as [H|H]; [discriminate|]); destruct H
         end.
Qed.

Lemma scenario_countable : countable_under "completed" [scenario_record].
Proof. intros r v [<-|[]] Hv. cbn in Hv. now inversion Hv. Qed.

Lemma scenario_small_ints : small_ints [scenario_record].
Proof.
  intros r k z [<-|[]] Hz. cbn in Hz.
  repeat match type of Hz with
         | (if ?b then _ else _) = _ => destruct b
         end; inversion Hz; subst; cbn; lia.
Qed.

Lemma transformed_rows_witness :
  clean_keys [scenario_record] /\
  countable_under "completed" [scenario_record] /\
  small_ints [scenario_record] /\
  exists df w1,
    process_data [scenario_record] (fresh_world (Unreachable EmptyString))
      = (Return df, w1) /\
    nth_error (rows df) 0
    = Some [Val (JInt 1); Val (JInt 1); Val (JStr "A"); Val (JBool true);
            Val (JStr "Done ✅")].
Proof.
  split; [exact scenario_clean_keys|]. split; [exact scenario_countable|].
  split; [exact scenario_small_ints|].
  destruct (transformed_rows [scenario_record] (fresh_world (Unreachable EmptyString))
              scenario_clean_keys scenario_countable scenario_small_ints)
    as (df & w1 & Hp & _ & _ & _ & Hrow).
  exists df, w1. split; [exact Hp|].
  destruct (Hrow 0%nat scenario_record eq_refl) as (st & -> & Hst).
  now rewrite (Hst eq_refl).
Defined.

Lemma column_of_same (k : string) (data data' : list RawRecord) :
  Forall2 (fun r r' => field k r = field k r') data data' ->
  column_of data k = column_of data' k.
Proof.
  induction 1 as [|r r' data data' Hr _ IH]; [reflexivity|].
  rewrite !column_of_fields in *. cbn. now rewrite Hr, IH.
Qed.

(** X2. The transform reads four keys only. Two lists of records with
    clean keys that agree, record by record, on [id], [userId], [title]
    and [completed] give the same table, and so the same summary:
    neither the order of the keys inside a record nor any further key
    matters. *)
Theorem transform_reads_four_keys (data data' : list RawRecord) :
  clean_keys data -> clean_keys data' ->
  Forall2 same_fields data data' ->
  build_table data = build_table data' /\
  obind (build_table data) summary_statistics
  = obind (build_table data') summary_statistics.
Proof.
  intros Hc Hc' Hsame.
  assert (E : build_table data = build_table data').
  { rewrite (build_table_clean data Hc), (build_table_clean data' Hc').
    unfold clean_table.
    rewrite (List.Forall2_length Hsame).
    rewrite (column_of_same "id" data data'),
            (column_of_same "userId" data data'),
            (column_of_same "title" data data'),
            (column_of_same "completed" data data'); [reflexivity| | | |];
      eapply List.Forall2_impl; try exact Hsame;
      intros r r' (H1 & H2 & H3 & H4); assumption. }
  split; [exact E|now rewrite E].
Qed.

Lemma transform_reads_four_keys_witness :
  clean_keys [scenario_record] /\ clean_keys [reordered_record] /\
  Forall2 same_fields [scenario_record] [reordered_record] /\
  build_table [reordered_record] = Return scenario_table.
Proof.
  assert (Hc : clean_keys [reordered_record]).
  { unfold clean_keys.
    repeat match goal with
           | |- _ /\ _ => split
           | |- key_used _ _ => exists reordered_record; cbn; tauto
           | |- ~ key_used _ _ =>
               let H := fresh "H" in
               intros (r & [<-|[]] & H); cbn in H;
               repeat (destruct H as [H|H]; [discriminate|]); destruct H
           end. }
  assert (Hs : Forall2 same_fields [scenario_record] [reordered_record]).
  { constructor; [|constructor]. repeat split. }
  split; [exact scenario_clean_keys|]. split; [exact Hc|]. split; [exact Hs|].
  destruct (transform_reads_four_keys [scenario_record] [reordered_record]
              scenario_clean_keys Hc Hs) as [E _].
  rewrite <- E. reflexivity.
Defined.

(** ** When the transform succeeds, and how it fails *)









(** ** The summary and the status column *)

(** Without numbers in the column, [Series.map] is the two-valued
    lookup, cell by cell. *)
Lemma Series_map_status_for (s : list cell) :
  existsb is_int s = false -> Series_map STATUS s = map status_for s.
Proof.
  intros Hi. unfold Series_map.
  destruct (is_numeric_dtype (infer_dtype s)) eqn:Hn.
  - apply numeric_dtype_has_int in Hn. congruence.
  - apply List.map_ext_in. intros c Hc.
    assert (Hci : is_int c = false).
    { destruct (is_int c) eqn:E; [|reflexivity].
      rewrite <- Hi. symmetry. apply List.existsb_exists. eauto. }
    destruct c as [|[|[|]|z|t|t']]; try reflexivity. discriminate.
Qed.

Lemma status_counts (s : list cell) :
  length (List.filter (is_text "Done ✅") (map status_for s))
    = length (List.filter is_true_cell s) /\
  (length (List.filter (is_text "Done ✅") (map status_for s))
   + length (List.filter (is_text "Pending ⏳") (map status_for s))
   + length (List.filter is_nan (map status_for s)) = length s)%nat.
Proof.
  induction s as [|c s [IH1 IH2]]; [split; reflexivity|].
  destruct c as [|[|[|]|z|t|t']]; cbn [map status_for List.filter is_text is_nan
                                     is_true_cell length];
    rewrite ?String.eqb_refl;
    try match goal with
        | |- context [String.eqb ?a ?b] =>
            let E := fresh in
            destruct (String.eqb_spec a b) as [E|_]; [discriminate E|]
        end;
    cbn [length]; split; lia.
Qed.

(** X5. The summary agrees with the status column. When the transform
    succeeds and no [is_completed] value is a number, [completed] is the
    number of rows labelled "Done ✅", [pending] is the number of rows
    labelled "Pending ⏳" plus the number of rows without a status,
    these three numbers add up to [total], and so
    [0 <= completed <= total] and [0 <= pending <= total]. *)
Theorem summary_matches_statuses (data : list RawRecord) (df : DataFrame) (s : Summary) :
  build_table data = Return df ->
  summary_statistics df = Return s ->
  exists col st,
    getitem "is_completed" df = Return (Series col) /\
    getitem "status" df = Return (Series st) /\
    (existsb is_int col = false ->
     value_of (completed s)
       = Z.of_nat (length (List.filter (is_text "Done ✅") st)) /\
     value_of (pending s)
       = (Z.of_nat (length (List.filter (is_text "Pending ⏳") st))
          + Z.of_nat (length (List.filter is_nan st)))%Z /\
     (0 <= value_of (completed s) <= total s)%Z /\
     (0 <= value_of (pending s) <= total s)%Z).
Proof.
  intros Hb Hs.
  destruct (build_table_columns data df Hb) as (k0 & _ & _ & Hc & Hst & Hidx).
  set (col := column_of data k0) in *.
  exists col, (Series_map STATUS col).
  assert (Hg : getitem "is_completed" df = Return (Series col))
    by (unfold getitem; now rewrite Hc).
  split; [exact Hg|]. split; [unfold getitem; now rewrite Hst|].
  intros Hi.
  destruct (summary_statistics_inv df col s Hg Hs) as (_ & Ht & Hcp).
  rewrite (Series_map_status_for col Hi).
  destruct (status_counts col) as [Hd Hall].
  assert (Hlen : len df = Z.of_nat (length col)).
  { unfold len, col. now rewrite Hidx, length_column_of. }
  assert (Hsum := sum_counts_true col Hi).
  destruct Hcp as [(_ & Hc1 & Hp1)|(_ & Hc1 & Hp1)]; rewrite Hc1, Hp1; cbn [value_of];
    rewrite Ht, Hlen, Hsum; lia.
Qed.

Lemma summary_matches_statuses_witness :
  build_table [scenario_record; partial_record]
    = Return (clean_table [scenario_record; partial_record]) /\
  summary_statistics (clean_table [scenario_record; partial_record])
    = Return {| total := 2; completed := PyInt 1; pending := PyInt 1 |} /\
  exists col st,
    getitem "status" (clean_table [scenario_record; partial_record])
      = Return (Series st) /\
    existsb is_int col = false /\
    value_of (PyInt 1) = Z.of_nat (length (List.filter (is_text "Done ✅") st)).
Proof.
  split; [reflexivity|]. split; [reflexivity|].
  destruct (summary_matches_statuses [scenario_record; partial_record]
              (clean_table [scenario_record; partial_record])
              {| total := 2; completed := PyInt 1; pending := PyInt 1 |}
              eq_refl eq_refl) as (col & st & Hg & Hst & H).
  exists col, st. split; [exact Hst|].
  assert (Hi : existsb is_int col = false).
  { cbn in Hg. inversion Hg. reflexivity. }
  split; [exact Hi|]. exact (proj1 (H Hi)).
Defined.

(** ** The preview with a negative [n] *)



(** ** The whole run *)







(** X10. A failed save stops the run. When the fetch and the transform
    succeed but the output path cannot be opened for writing, [main]
    ends with [OSError] and exit status 1 right after the summary: no
    file is created or modified, no save confirmation and no preview is
    printed. *)
Theorem main_stops_when_save_fails (w : World) (code : Z) (rsn : string)
        (data : list RawRecord) (df : DataFrame) (s : Summary) :
  reply w = Response code rsn (Some data) ->
  is_error_status code = false ->
  build_table data = Return df ->
  summary_statistics df = Return s ->
  In OUTPUT (readonly w) ->
  fst (main w) = Raise OSError /\
  exit_status (fst (main w)) = 1%Z /\
  files (snd (main w)) = files w /\
  stdout (snd (main w))
    = (stdout w ++ banner ++ fetch_intro API_URL PARAMS
       ++ [fetch_success_line data]
       ++ (processing_line :: summary_lines s))%list.
Proof.
  intros Hr He Hb Hs Hw.
  assert (Hmain : main w
            = (Raise OSError,
               {| stdout := (stdout w ++ banner ++ fetch_intro API_URL PARAMS
                             ++ [fetch_success_line data]
                             ++ (processing_line :: summary_lines s))%list;
                  files := files w; readonly := readonly w; reply := reply w;
                  requests_sent := S (requests_sent w) |})).
  { rewrite main_unfold. unfold bind at 1.
    rewrite (fetch_todos_run API_URL PARAMS (banner_world w) code rsn data Hr He).
    unfold after_fetch, bind.
    rewrite (process_data_run data df s _ Hb Hs).
    rewrite save_to_csv_fail by exact Hw.
    unfold printed, banner_world.
    cbn [stdout files readonly reply requests_sent].
    f_equal. f_equal. rewrite <- !List.app_assoc. reflexivity. }
  rewrite Hmain. cbn [fst snd stdout files exit_status].
  repeat (split; [reflexivity|]). reflexivity.
Qed.

Lemma main_stops_when_save_fails_witness :
  is_error_status 200 = false /\
  In OUTPUT (readonly (locked_world (Response 200 "OK" (Some [scenario_record])))) /\
  fst (main (locked_world (Response 200 "OK" (Some [scenario_record]))))
    = Raise OSError /\
  files (snd (main (locked_world (Response 200 "OK" (Some [scenario_record]))))) = ∅.
Proof.
  split; [reflexivity|]. split; [now left|].
  destruct (main_stops_when_save_fails
              (locked_world (Response 200 "OK" (Some [scenario_record])))
              200 "OK" [scenario_record] scenario_table
              {| total := 1; completed := PyInt 1; pending := PyInt 0 |}
              eq_refl eq_refl eq_refl eq_refl)
    as (Ho & _ & Hf & _).
  - now left.
  - split; [exact Ho|exact Hf].
Defined.

(** ** The order of the [except] clauses *)

(** X12. A timeout is reported by the phase it strikes in. A connect
    timeout is an instance of [ConnectionError], whose clause comes
    first: [fetch_todos] prints the could-not-connect message, not the
    timeout message. A read timeout prints the timeout message. Both end
    the process with [SystemExit(1)] after a single request. *)
Theorem timeout_reports (target : string) (params : dict Z) (w : World) (msg : string) :
  (reply w = ConnectTimedOut msg ->
   fst (fetch_todos target params w) = Raise (SystemExit 1) /\
   requests_sent (snd (fetch_todos target params w)) = S (requests_sent w) /\
   stdout (snd (fetch_todos target params w))
     = (stdout w ++ fetch_intro target params
        ++ [Line "❌  ERROR: Could not connect. Check your internet connection."])%list) /\
  (reply w = ReadTimedOut msg ->
   fst (fetch_todos target params w) = Raise (SystemExit 1) /\
   requests_sent (snd (fetch_todos target params w)) = S (requests_sent w) /\
   stdout (snd (fetch_todos target params w))
     = (stdout w ++ fetch_intro target params
        ++ [Line "❌  ERROR: The request timed out. The server may be slow."])%list).
Proof.
  destruct (fetch_todos_spec target params w) as (shown & o & -> & Hk).
  cbn [fst snd called printed stdout requests_sent].
  split; intros Hr; rewrite Hr in Hk; cbn [fetch_outcome] in Hk;
    destruct Hk as [-> Hrep]; cbn [failure_report] in Hrep; subst shown;
    repeat split.
Qed.

(** ** The content of the output file *)

(** A decimal integer is written unquoted. *)
Lemma csv_field_str_int (z : Z) : csv_field (str_int z) = str_int z.
Proof.
  unfold csv_field, needs_quoting.
  rewrite !str_int_without; [reflexivity| | |];
    intros x Hx; cbn in Hx;
    repeat (destruct Hx as [<-|Hx]; [reflexivity|]); destruct Hx.
Qed.

Lemma map_seq_nth {A B : Type} (f : A -> B) (l : list A) (d : A) :
  map (fun i => f (nth i l d)) (seq 0 (length l)) = map f l.
Proof.
  induction l as [|a l IH]; [reflexivity|].
  cbn [length seq map nth]. f_equal.
  rewrite <- List.seq_shift, List.map_map. exact IH.
Qed.

(** Outside a float column, and for every cell that is not a number,
    the text of a cell does not depend on the dtype of its column. *)
Lemma format_cell_str (d : dtype) (c : cell) :
  d <> float64 \/ is_int c = false -> format_cell d c = cell_str c.
Proof.
  intros [Hd|Hc]; destruct c as [|[|[|]|z|t|t']]; try reflexivity;
    try discriminate; destruct d; try reflexivity; congruence.
Qed.

Lemma int_column_dtype (s : list cell) :
  forallb is_int s = true -> infer_dtype s <> float64.
Proof.
  intros Hi. unfold infer_dtype. rewrite Hi.
  destruct (forallb is_bool s); discriminate.
Qed.

Lemma typed_columns (data : list RawRecord) :
  Forall typed_record data ->
  forallb is_int (column_of data "id") = true /\
  forallb is_int (column_of data "userId") = true /\
  existsb is_int (column_of data "completed") = false.
Proof.
  induction 1 as [|r data (i & u & t & b & Hi & Hu & Ht & Hb & _) _ (IH1 & IH2 & IH3)];
    [repeat split|].
  unfold column_of in *. cbn [map forallb existsb].
  rewrite Hi, Hu, Hb, IH1, IH2, IH3. repeat split.
Qed.

Lemma typed_countable (data : list RawRecord) :
  Forall typed_record data -> countable_under "completed" data.
Proof.
  intros Hty r v Hr Hv. rewrite List.Forall_forall in Hty.
  destruct (Hty r Hr) as (i & u & t & b & _ & _ & _ & Hb & _).
  rewrite Hb in Hv. now inversion Hv.
Qed.

Lemma csv_line_many (a b : string) (rest : list string) :
  csv_line (a :: b :: rest) = join "," (map csv_field (a :: b :: rest)).
Proof. unfold csv_line. now destruct a. Qed.

(** The line of a typed record, field by field. *)
Lemma typed_record_line (r : RawRecord) (dt du dtl dc ds : dtype) :
  typed_record r ->
  dt <> float64 -> du <> float64 ->
  csv_line [format_cell dt (field "id" r); format_cell du (field "userId" r);
            format_cell dtl (field "title" r); format_cell dc (field "completed" r);
            format_cell ds (status_for (field "completed" r))]
  = record_line r.
Proof.
  intros (i & u & t & b & Hi & Hu & Ht & Hb & Hq & _) Hdt Hdu.
  unfold record_line, field. rewrite Hi, Hu, Ht, Hb.
  rewrite (format_cell_str dt), (format_cell_str du) by now left.
  rewrite (format_cell_str dtl), (format_cell_str dc) by now right.
  rewrite (format_cell_str ds) by (right; now destruct b).
  rewrite csv_line_many. cbn [cell_str format_cell map].
  rewrite !csv_field_str_int.
  assert (Et : csv_field t = t) by (unfold csv_field; now rewrite Hq).
  rewrite Et.
  destruct b; reflexivity.
Qed.

(** *** Texts that can be encoded *)

Lemma encodable_without (s : string) :
  contains_char (ascii_of_nat 237) s = false -> encodable s = true.
Proof.
  induction s as [|c s IH]; [reflexivity|].
  cbn [contains_char encodable]. intros H.
  apply orb_false_iff in H as [Hc Hs]. rewrite (IH Hs), andb_true_r.
  destruct s as [|c' s']; [reflexivity|].
  apply negb_true_iff, andb_false_iff. left.
  apply Nat.eqb_neq. intros E.
  assert (Ec : c = ascii_of_nat 237) by (rewrite <- E; now rewrite ascii_nat_embedding).
  subst c. discriminate Hc.
Qed.

Lemma encodable_str_int (z : Z) : encodable (str_int z) = true.
Proof.
  apply encodable_without, str_int_without. intros x Hx. cbn in Hx.
  repeat (destruct Hx as [<-|Hx]; [reflexivity|]). destruct Hx.
Qed.

Lemma encodable_record_line (r : RawRecord) :
  typed_record r -> encodable (record_line r) = true.
Proof.
  intros (i & u & t & b & Hi & Hu & Ht & Hb & _ & He).
  unfold record_line, field. rewrite Hi, Hu, Ht, Hb.
  cbn [join cell_str format_cell status_for].
  repeat apply encodable_comma; try apply encodable_str_int; try exact He;
    destruct b; reflexivity.
Qed.

(** X13. What the output file holds for typed records. When the list of
    records is not empty, every record has an integer [id] and [userId],
    a [title] without comma, quote or line feed that can be encoded, and
    a boolean [completed], no record has a key [todo_id], [user_id],
    [task] or [is_completed], and the output path can be opened,
    [process_data] returns a table, [save_to_csv] writes it, and the
    file then holds the header followed, record by record and in the
    order of the input, by the line [id,userId,title,True|False,status]. *)
Theorem csv_of_typed_records (data : list RawRecord) (w : World) :
  data <> [] ->
  Forall typed_record data ->
  ~ key_used "todo_id" data -> ~ key_used "user_id" data ->
  ~ key_used "task" data -> ~ key_used "is_completed" data ->
  ~ In OUTPUT (readonly w) ->
  exists df w1 w2,
    process_data data w = (Return df, w1) /\
    save_to_csv df OUTPUT w1 = (Return tt, w2) /\
    files w2 !! OUTPUT = Some (HEADER :: map record_line data) /\
    (forall path, path <> OUTPUT -> files w2 !! path = files w !! path).
Proof.
  intros Hne Hty H1 H2 H3 H4 Hw.
  assert (Hclean : clean_keys data).
  { destruct data as [|r data]; [congruence|].
    inversion Hty as [|? ? (i & u & t & b & Hi & Hu & Ht & Hb & _) _]; subst.
    assert (Hk : forall k v, dict_get k r = Some v -> key_used k (r :: data)).
    { intros k v Hg. exists r. split; [now left|].
      apply dict_get_In in Hg. unfold dict_keys.
      apply List.in_map_iff. now exists (k, v). }
    unfold clean_keys. repeat split; eauto. }
  destruct (process_data_clean data w Hclean (typed_countable data Hty))
    as (s & Hb & Hs & Hp).
  assert (Hcsv : to_csv (clean_table data) = HEADER :: map record_line data).
  { destruct (typed_columns data Hty) as (Hid & Hu & Hc).
    unfold to_csv. f_equal.
    cbn [clean_table index columns map].
    rewrite <- (map_seq_nth record_line data []).
    apply List.map_ext_in. intros i Hi. apply List.in_seq in Hi.
    assert (Hr : nth_error data i = Some (nth i data [])).
    { apply List.nth_error_nth'. lia. }
    assert (Hty_i : typed_record (nth i data [])).
    { rewrite List.Forall_forall in Hty. apply Hty. apply List.nth_In. lia. }
    unfold format_column. cbn [snd].
    assert (Hnth : forall d col, length col = length data ->
              nth i (map (format_cell d) col) EmptyString = format_cell d (nth i col NaN)).
    { intros d col Hlen.
      change EmptyString with (format_cell d NaN). apply List.map_nth. }
    rewrite !Hnth by (rewrite ?length_Series_map; apply length_column_of).
    rewrite (Series_map_status_for _ Hc).
    rewrite !column_of_fields.
    change NaN with (status_for NaN) at 5.
    rewrite (List.map_nth status_for).
    assert (Hf : forall k, nth i (map (field k) data) NaN = field k (nth i data [])).
    { intros k. rewrite <- column_of_fields. now apply nth_field. }
    rewrite !Hf.
    apply typed_record_line; [exact Hty_i| |].
    - rewrite <- column_of_fields. now apply int_column_dtype.
    - rewrite <- column_of_fields. now apply int_column_dtype. }
  assert (Henc : forallb encodable (to_csv (clean_table data)) = true).
  { rewrite Hcsv. cbn [forallb]. apply andb_true_iff. split; [reflexivity|].
    apply List.forallb_forall. intros l Hl.
    apply List.in_map_iff in Hl as (r & <- & Hr).
    apply encodable_record_line. rewrite List.Forall_forall in Hty. now apply Hty. }
  exists (clean_table data). do 2 eexists.
  split; [exact Hp|]. split; [now apply save_to_csv_run|].
  unfold printed. cbn [files].
  split; [rewrite lookup_insert_eq; now rewrite Hcsv|].
  intros path Hpath. apply lookup_insert_ne. congruence.
Qed.

Lemma csv_of_typed_records_witness :
  Forall typed_record [scenario_record] /\
  ~ In OUTPUT (readonly (fresh_world (Unreachable EmptyString))) /\
  exists df w1 w2,
    process_data [scenario_record] (fresh_world (Unreachable EmptyString))
      = (Return df, w1) /\
    save_to_csv df OUTPUT w1 = (Return tt, w2) /\
    files w2 !! OUTPUT = Some [HEADER; "1,1,A,True,Done ✅"].
Proof.
  assert (Hty : Forall typed_record [scenario_record]).
  { constructor; [|constructor].
    exists 1%Z, 1%Z, "A", true. repeat split. }
  split; [exact Hty|]. split; [apply fresh_world_writable|].
  destruct scenario_clean_keys as (_ & _ & _ & _ & H1 & H2 & H3 & H4).
  destruct (csv_of_typed_records [scenario_record]
              (fresh_world (Unreachable EmptyString))
              ltac:(discriminate) Hty H1 H2 H3 H4 (fresh_world_writable _ _))
    as (df & w1 & w2 & Hp & Hs & Hf & _).
  exists df, w1, w2. split; [exact Hp|]. split; [exact Hs|]. exact Hf.
Defined.
